(** * SCLM: the knowledge store, the enrichers and the dialogue managers

    A shallow embedding of the Python sources of the Semantic Core Language
    Model:

    - [sclm_phase_9_knowledge.py]          (module [Phase9])
    - [sclm_phase_10_interactive_graph.py] (module [Phase10])
    - [sclm_phase_4_nuance.py]             (module [Nuance])
    - [sclm_phase_7_tone.py]               (module [Tone])
    - [sclm_final_interactive.py]          (module [Final])
    - [sclm_interactive_chat.py]           (module [Chat])

    Modelling conventions.
    - A Python [str] is a [string], the bytes of its UTF-8 encoding.
      [Py.lower] is [str.lower] on ASCII text: it folds [A-Z] and leaves
      every other byte alone. [str.lower] itself follows the Unicode case
      mapping, which is not part of the source; the methods that call it
      are given a second time with the mapping as a parameter (modules
      [Phase9U], [Phase10U], [Parser10U]), and what is proved of those
      holds for every mapping, Python's among them.
    - The SQLite table [knowledge] is the list of its rows in rowid order,
      which is the order a [SELECT] without [ORDER BY] scans them in.
    - Methods run in a state-and-exception monad whose state survives a
      raised exception, as the mutation of a Python object does.
    - [datetime.now()] is an argument of the method that reads the clock.
    - The spaCy parser is an argument of the dialogue managers. *)

From Stdlib Require Import String Ascii List Bool Arith ZArith Lia.
Import ListNotations.
Open Scope string_scope.

Set Implicit Arguments.

(** ** Python strings and values *)

Module Py.

Definition lower_ascii (c : ascii) : ascii :=
  let n := nat_of_ascii c in
  if ((65 <=? n) && (n <=? 90))%nat then ascii_of_nat (n + 32) else c.

(** [s.lower()] *)
Fixpoint lower (s : string) : string :=
  match s with
  | EmptyString => EmptyString
  | String c s' => String (lower_ascii c) (lower s')
  end.

(** [x in l] for a list of strings *)
Definition mem (x : string) (l : list string) : bool :=
  existsb (String.eqb x) l.

(** [sub in s] for two strings: [sub] occurs in [s] at some position *)
Fixpoint contains (sub s : string) : bool :=
  String.prefix sub s ||
  match s with
  | EmptyString => false
  | String _ s' => contains sub s'
  end.

(** [sep.join(items)] *)
Definition join (sep : string) (items : list string) : string :=
  String.concat sep items.

(** The values a dynamically typed slot holds in this program. *)
Inductive value : Type :=
| PyNone
| PyBool (b : bool)
| PyStr (s : string).

(** [bool(v)] *)
Definition truthy (v : value) : bool :=
  match v with
  | PyNone => false
  | PyBool b => b
  | PyStr s => negb (s =? "")
  end.

(** [str(v)], what an f-string field prints *)
Definition str (v : value) : string :=
  match v with
  | PyNone => "None"
  | PyBool true => "True"
  | PyBool false => "False"
  | PyStr s => s
  end.

(** An optional string is [None] or a [str]. *)
Definition of_option (o : option string) : value :=
  match o with
  | None => PyNone
  | Some s => PyStr s
  end.

(** [a or b] on optional strings *)
Definition or_else (a b : option string) : option string :=
  if truthy (of_option a) then a else b.

End Py.

(** ** Exceptions and the method monad *)

Inductive exn : Type :=
| ProgrammingError   (* sqlite3: operation on a closed database *)
| IntegrityError     (* sqlite3: UNIQUE constraint failed *)
| AttributeError.    (* the object has no such method *)

Inductive result (A : Type) : Type :=
| Ok (a : A)
| Raised (e : exn).

Arguments Ok {A} a.
Arguments Raised {A} e.

(** A method of an object of state [S]: it yields a value or raises, and
    leaves the object in a state either way. *)
Definition M (S A : Type) : Type := S -> result A * S.

Definition ret {S A} (a : A) : M S A := fun self => (Ok a, self).

Definition raise {S A} (e : exn) : M S A := fun self => (Raised e, self).

Definition bind {S A B} (m : M S A) (f : A -> M S B) : M S B :=
  fun self =>
    match m self with
    | (Ok a, self') => f a self'
    | (Raised e, self') => (Raised e, self')
    end.

Declare Scope method_scope.
Delimit Scope method_scope with method.
Notation "x <- m ;; k" := (bind m (fun x => k))
  (at level 61, m at next level, right associativity) : method_scope.
Notation "m ;;; k" := (bind m (fun _ => k))
  (at level 61, right associativity) : method_scope.
Open Scope method_scope.

(** [for x in xs: body(x)] *)
Fixpoint for_each {S A} (xs : list A) (body : A -> M S unit) : M S unit :=
  match xs with
  | [] => ret tt
  | x :: xs' => body x ;;; for_each xs' body
  end.

Definition datetime : Type := Z.

(** ** The core thought

    The dict built by [SemanticParser.parse_sentence]; every key is always
    present, a missing part is [None]. *)

Module Thought.

Record CoreThought : Type := {
  input_sentence   : string;
  action           : option string;
  agent            : option string;
  object           : option string;
  destination      : option string;
  tense            : option string;
  mood             : string;
  attribute        : option string;
  urgency          : string;
  mood_connotation : string;
  tone             : string;
  entities         : list (string * string);
  preposition      : option string;
  tense_aspect     : option string;
  learning_fact    : option (string * string * string);
  query_fact       : option (string * string)
}.

(** [core_thought["agent"] = a] *)
Definition set_agent (a : string) (t : CoreThought) : CoreThought :=
  {| input_sentence := input_sentence t; action := action t;
     agent := Some a; object := object t; destination := destination t;
     tense := tense t; mood := mood t; attribute := attribute t;
     urgency := urgency t; mood_connotation := mood_connotation t;
     tone := tone t; entities := entities t;
     preposition := preposition t; tense_aspect := tense_aspect t;
     learning_fact := learning_fact t; query_fact := query_fact t |}.

(** [core_thought["tone"] = x] *)
Definition set_tone (x : string) (t : CoreThought) : CoreThought :=
  {| input_sentence := input_sentence t; action := action t;
     agent := agent t; object := object t; destination := destination t;
     tense := tense t; mood := mood t; attribute := attribute t;
     urgency := urgency t; mood_connotation := mood_connotation t;
     tone := x; entities := entities t;
     preposition := preposition t; tense_aspect := tense_aspect t;
     learning_fact := learning_fact t; query_fact := query_fact t |}.

(** [core_thought["urgency"] = u; core_thought["mood_connotation"] = m] *)
Definition set_nuance (u m : string) (t : CoreThought) : CoreThought :=
  {| input_sentence := input_sentence t; action := action t;
     agent := agent t; object := object t; destination := destination t;
     tense := tense t; mood := mood t; attribute := attribute t;
     urgency := u; mood_connotation := m;
     tone := tone t; entities := entities t;
     preposition := preposition t; tense_aspect := tense_aspect t;
     learning_fact := learning_fact t; query_fact := query_fact t |}.

(** The dict [parse_sentence] starts from. *)
Definition blank (sentence : string) : CoreThought :=
  {| input_sentence := sentence; action := None; agent := None;
     object := None; destination := None; tense := None;
     mood := "indicative"; attribute := None; urgency := "neutral";
     mood_connotation := "neutral"; tone := "neutral"; entities := [];
     preposition := None; tense_aspect := None;
     learning_fact := None; query_fact := None |}.

End Thought.

(** ** sclm_phase_9_knowledge.py *)

Module Phase9.

Record row : Type := {
  subject      : string;
  relationship : string;
  fact         : string;
  is_immutable : bool;
  source       : string;
  timestamp    : datetime
}.

(** The engine object: its connection and the table behind it. *)
Record KnowledgeGraphEngine : Type := {
  connection_open : bool;
  knowledge       : list row
}.

Definition singular_relationships : list string := ["shape"; "capital"].

(** [cursor.execute("SELECT ...")] followed by a fetch: [q] reads the
    table; a closed connection raises. *)
Definition select {A} (q : list row -> A) : M KnowledgeGraphEngine A :=
  fun self =>
    if connection_open self then (Ok (q (knowledge self)), self)
    else (Raised ProgrammingError, self).

(** [cursor.execute("INSERT INTO knowledge ...")]: the table has no
    constraint, the row goes to the end. *)
Definition insert (r : row) : M KnowledgeGraphEngine unit :=
  fun self =>
    if connection_open self
    then (Ok tt, {| connection_open := true;
                    knowledge := knowledge self ++ [r] |})
    else (Raised ProgrammingError, self).

(** [WHERE subject = ? AND relationship = ?] *)
Definition where_key (s r : string) (x : row) : bool :=
  (subject x =? s) && (relationship x =? r).

Definition constants : list (string * string * string) :=
  [ ("ball", "shape", "round");
    ("ball", "can_be_action", "thrown");
    ("ball", "can_be_action", "caught");
    ("car", "has_part", "engine");
    ("car", "has_part", "wheel");
    ("France", "capital", "Paris") ].

Definition _initialize_database (now : datetime)
  : M KnowledgeGraphEngine unit :=
  count <- select (@length row) ;;
  if (count =? 0)%nat then
    for_each constants (fun '(subj, rel, fact) =>
      insert {| subject := Py.lower subj; relationship := Py.lower rel;
                fact := fact; is_immutable := true;
                source := "System_Constant"; timestamp := now |})
  else ret tt.

(** [KnowledgeGraphEngine(db_path)]: connect to the database file, whose
    table holds [db], and initialise it. *)
Definition new (db : list row) (now : datetime) : KnowledgeGraphEngine :=
  snd (_initialize_database now
         {| connection_open := true; knowledge := db |}).

Definition query_facts (subject relationship : string)
  : M KnowledgeGraphEngine (list string) :=
  select (fun rows =>
    map fact (filter (where_key (Py.lower subject) (Py.lower relationship))
                     rows)).

Definition learn_fact (subject relationship fact source : string)
           (now : datetime) : M KnowledgeGraphEngine string :=
  let subj_lower := Py.lower subject in
  let rel_lower := Py.lower relationship in
  let fact_lower := Py.lower fact in
  existing_facts <-
    select (fun rows =>
      map (fun x => (Phase9.fact x, is_immutable x))
          (filter (where_key subj_lower rel_lower) rows)) ;;
  let learn :=
    insert {| subject := subj_lower; relationship := rel_lower;
              fact := fact; is_immutable := false;
              source := source; timestamp := now |} ;;;
    ret "LEARNED_SUCCESSFULLY" in
  match existing_facts with
  | [] => learn
  | (_, first_is_immutable) :: _ =>
      if Py.mem rel_lower singular_relationships && first_is_immutable
      then ret "CONFLICT_WITH_CONSTANT"
      else if existsb (fun '(existing_fact, _) =>
                         fact_lower =? Py.lower existing_fact)
                      existing_facts
      then ret "ALREADY_KNOWN"
      else learn
  end.

(** [connection.close()]; closing a closed connection is allowed. *)
Definition close : M KnowledgeGraphEngine unit :=
  fun self =>
    (Ok tt, {| connection_open := false; knowledge := knowledge self |}).

(** The states the engine's own operations lead to from a new database
    file. *)
Inductive reachable : KnowledgeGraphEngine -> Prop :=
| reach_new now : reachable (new [] now)
| reach_learn self s r f src now :
    reachable self -> reachable (snd (learn_fact s r f src now self))
| reach_close self :
    reachable self -> reachable (snd (close self))
| reach_reopen self now :
    reachable self -> reachable (new (knowledge self) now).

End Phase9.

(** ** sclm_phase_10_interactive_graph.py *)

Module Phase10.

Record row : Type := {
  subject      : string;
  relationship : string;
  fact         : string;
  is_immutable : bool;
  source       : string;
  timestamp    : datetime
}.

Record KnowledgeGraphEngine : Type := {
  connection_open : bool;
  knowledge       : list row
}.

Definition singular_relationships : list string :=
  ["shape"; "capital"; "state"].

Definition where_key (s r : string) (x : row) : bool :=
  (subject x =? s) && (relationship x =? r).

(** The table constraint [UNIQUE(subject, relationship)]. *)
Definition key (x : row) : string * string := (subject x, relationship x).

Definition unique_keys (rows : list row) : Prop := NoDup (map key rows).

Definition select {A} (q : list row -> A) : M KnowledgeGraphEngine A :=
  fun self =>
    if connection_open self then (Ok (q (knowledge self)), self)
    else (Raised ProgrammingError, self).

(** [DROP TABLE IF EXISTS knowledge] and [CREATE TABLE IF NOT EXISTS] *)
Definition drop_and_create : M KnowledgeGraphEngine unit :=
  fun self =>
    if connection_open self
    then (Ok tt, {| connection_open := true; knowledge := [] |})
    else (Raised ProgrammingError, self).

(** [INSERT INTO knowledge VALUES (...)]: a row whose key is taken
    violates the constraint. *)
Definition insert (r : row) : M KnowledgeGraphEngine unit :=
  fun self =>
    if connection_open self then
      if existsb (where_key (subject r) (relationship r)) (knowledge self)
      then (Raised IntegrityError, self)
      else (Ok tt, {| connection_open := true;
                      knowledge := knowledge self ++ [r] |})
    else (Raised ProgrammingError, self).

(** [INSERT OR REPLACE INTO knowledge ...]: the row that holds the key is
    deleted, the new row is inserted. *)
Definition insert_or_replace (r : row) : M KnowledgeGraphEngine unit :=
  fun self =>
    if connection_open self
    then (Ok tt,
          {| connection_open := true;
             knowledge :=
               filter (fun x =>
                         negb (where_key (subject r) (relationship r) x))
                      (knowledge self) ++ [r] |})
    else (Raised ProgrammingError, self).

Definition constants : list (string * string * string) :=
  [ ("ball", "shape", "round"); ("France", "capital", "Paris") ].

Definition _initialize_database (now : datetime)
  : M KnowledgeGraphEngine unit :=
  drop_and_create ;;;
  count <- select (@length row) ;;
  if (count =? 0)%nat then
    for_each constants (fun '(subj, rel, fact) =>
      insert {| subject := Py.lower subj; relationship := Py.lower rel;
                fact := fact; is_immutable := true;
                source := "System_Constant"; timestamp := now |})
  else ret tt.

Definition new (db : list row) (now : datetime) : KnowledgeGraphEngine :=
  snd (_initialize_database now
         {| connection_open := true; knowledge := db |}).

Definition query_facts (subject relationship : string)
  : M KnowledgeGraphEngine (list string) :=
  select (fun rows =>
    map fact (filter (where_key (Py.lower subject) (Py.lower relationship))
                     rows)).

Definition learn_fact (subject relationship fact source : string)
           (now : datetime) : M KnowledgeGraphEngine string :=
  let s_lower := Py.lower subject in
  let r_lower := Py.lower relationship in
  immutable_flag <-
    select (fun rows =>
      hd_error (map is_immutable (filter (where_key s_lower r_lower) rows))) ;;
  match immutable_flag with
  | Some true => ret "CONFLICT_WITH_CONSTANT"
  | _ =>
      is_update <-
        select (fun rows =>
          match hd_error (filter (where_key s_lower r_lower) rows) with
          | Some _ => true
          | None => false
          end) ;;
      insert_or_replace
        {| subject := s_lower; relationship := r_lower; fact := fact;
           is_immutable := false; source := source; timestamp := now |} ;;;
      if is_update : bool then ret "UPDATED_BELIEF"
      else ret "LEARNED_SUCCESSFULLY"
  end.

Definition close : M KnowledgeGraphEngine unit :=
  fun self =>
    (Ok tt, {| connection_open := false; knowledge := knowledge self |}).

(** *** ResponseEngine *)

Definition _format_list (items : list string) : string :=
  match items with
  | [] => ""
  | [x] => x
  | _ => Py.join ", " (removelast items) ++ ", and " ++ last items ""
  end.

Import Thought.

Definition generate_response (core_thought : CoreThought) (now : datetime)
  : M KnowledgeGraphEngine string :=
  let mood := mood core_thought in
  let factual_question_and_below : M KnowledgeGraphEngine string :=
    match (if mood =? "interrogative_fact" then query_fact core_thought
           else None) with
    | Some (subject, rel) =>
        answers <- query_facts subject rel ;;
        match answers with
        | _ :: _ =>
            let verb := if (length answers =? 1)%nat then "is" else "are" in
            ret ("Based on what I know, the " ++ rel ++ " of " ++ subject
                 ++ " " ++ verb ++ ": " ++ _format_list answers ++ ".")
        | [] =>
            ret ("I don't have any information about the " ++ rel ++ " of "
                 ++ subject ++ ".")
        end
    | None =>
        if Py.truthy (Py.of_option (attribute core_thought)) then
          ret (Py.str (Py.of_option (agent core_thought))
               ++ " certainly seems to be "
               ++ Py.str (Py.of_option (attribute core_thought))
               ++ ". That's an interesting observation.")
        else ret "I understand. Thank you for telling me."
    end in
  match (if mood =? "declarative_fact" then learning_fact core_thought
         else None) with
  | Some (subject, rel, fact) =>
      result <- learn_fact subject rel fact "user" now ;;
      if result =? "LEARNED_SUCCESSFULLY" then
        ret ("Okay, I've learned that the " ++ rel ++ " of " ++ subject
             ++ " is " ++ fact ++ ".")
      else if result =? "UPDATED_BELIEF" then
        ret ("Okay, I've updated my belief. I now understand that the "
             ++ rel ++ " of " ++ subject ++ " is " ++ fact ++ ".")
      else if result =? "CONFLICT_WITH_CONSTANT" then
        known_fact <- query_facts subject rel ;;
        ret ("That's interesting, but my understanding is that the "
             ++ rel ++ " of " ++ subject ++ " is "
             ++ _format_list known_fact ++ ".")
      else factual_question_and_below
  | None => factual_question_and_below
  end.

(** *** DialogueManager: parse, then respond; it keeps no history. *)

Section DialogueManager.
Variable parse_sentence : string -> CoreThought.

Definition handle_message (message : string) (now : datetime)
  : M KnowledgeGraphEngine string :=
  let thought := parse_sentence message in
  generate_response thought now.
End DialogueManager.

End Phase10.

(** ** sclm_phase_4_nuance.py *)

Module Nuance.
Import Thought.

(** [verb_connotations]: verb, then its urgency and mood. *)
Definition verb_connotations : list (string * (string * string)) :=
  [ ("race",   ("high",    "hurried"));
    ("rush",   ("high",    "stressed"));
    ("hurry",  ("high",    "anxious"));
    ("walk",   ("low",     "casual"));
    ("stroll", ("low",     "leisurely"));
    ("wander", ("low",     "aimless"));
    ("chase",  ("medium",  "aggressive"));
    ("write",  ("neutral", "creative"));
    ("eat",    ("low",     "neutral")) ].

Fixpoint lookup (k : string) (d : list (string * (string * string)))
  : option (string * string) :=
  match d with
  | [] => None
  | (k', v) :: d' => if k =? k' then Some v else lookup k d'
  end.

Definition analyze_thought (core_thought : CoreThought) : CoreThought :=
  match action core_thought with
  | Some action_verb =>
      match lookup action_verb verb_connotations with
      | Some (u, m) => set_nuance u m core_thought
      | None => core_thought
      end
  | None => core_thought
  end.

End Nuance.

(** ** sclm_phase_7_tone.py *)

Module Tone.
Import Thought.

Definition sarcastic_positives : list string :=
  ["great"; "perfect"; "fantastic"; "wonderful"; "lovely"].

Definition negative_context_verbs : list string :=
  ["spill"; "break"; "lose"; "forget"; "drop"].

Definition has_positive_word (core_thought : CoreThought) : bool :=
  let sentence := Py.lower (input_sentence core_thought) in
  existsb (fun word => Py.contains word sentence) sarcastic_positives.

Definition has_negative_context (core_thought : CoreThought) : bool :=
  match action core_thought with
  | Some action => Py.mem action negative_context_verbs
  | None => false
  end.

Definition analyze_thought (core_thought : CoreThought) : CoreThought :=
  let neutral := set_tone "neutral" core_thought in
  if has_positive_word neutral && has_negative_context neutral
  then set_tone "sarcastic" neutral
  else neutral.

End Tone.

(** The pronoun rule, the same text in [sclm_final_interactive.py] and in
    [sclm_interactive_chat.py]; [conversation_history] is the field of the
    dialogue manager it reads. *)

Module Context.
Import Thought.

Definition is_agent_it (current_thought : CoreThought) : bool :=
  match agent current_thought with
  | Some agent => Py.lower agent =? "it"
  | None => false
  end.

Definition _resolve_context (conversation_history : list CoreThought)
           (current_thought : CoreThought) : CoreThought :=
  if is_agent_it current_thought then
    match conversation_history with
    | [] => current_thought
    | _ :: _ =>
        let last_thought := last conversation_history current_thought in
        let antecedent :=
          Py.or_else (object last_thought) (agent last_thought) in
        match antecedent with
        | Some a =>
            if Py.truthy (Py.PyStr a) then set_agent a current_thought
            else current_thought
        | None => current_thought
        end
    end
  else current_thought.

End Context.

(** ** sclm_final_interactive.py *)

Module Final.
Import Thought.

(** The module imports the name [KnowledgeEngine] from
    [sclm_phase_9_knowledge]; what the response engine uses of it are the
    methods [learn_fact] and [query_fact], whose results it tests for
    truth and prints. *)
Record KnowledgeEngine (KE : Type) : Type := {
  learn_fact : string -> string -> string -> datetime -> M KE Py.value;
  query_fact : string -> string -> M KE Py.value;
  close      : M KE unit
}.

(** The class [sclm_phase_9_knowledge] defines: [learn_fact] returns its
    outcome string, and there is no method [query_fact]. *)
Definition phase9_engine : KnowledgeEngine Phase9.KnowledgeGraphEngine :=
  {| learn_fact := fun subject relationship fact now =>
       outcome <- Phase9.learn_fact subject relationship fact "user" now ;;
       ret (Py.PyStr outcome);
     query_fact := fun _ _ => raise AttributeError;
     close := Phase9.close |}.

Section Engines.
Variable KE : Type.
Variable knowledge_engine : KnowledgeEngine KE.

Definition generate_response (core_thought : CoreThought)
           (now : datetime) : M KE string :=
  let mood := mood core_thought in
  match (if mood =? "declarative_fact" then learning_fact core_thought
         else None) with
  | Some (subject, relationship, fact) =>
      success <-
        learn_fact knowledge_engine subject relationship fact now ;;
      if Py.truthy success then
        ret ("Okay, I've learned that the " ++ relationship ++ " of "
             ++ subject ++ " is " ++ fact ++ ".")
      else
        ret ("I had trouble remembering that. "
             ++ "Could you try phrasing it differently?")
  | None =>
  match (if mood =? "interrogative_fact" then Thought.query_fact core_thought
         else None) with
  | Some (subject, relationship) =>
      answer <- Final.query_fact knowledge_engine subject relationship ;;
      if Py.truthy answer then
        ret ("Based on what I know, the " ++ relationship ++ " of "
             ++ subject ++ " is " ++ Py.str answer ++ ".")
      else
        ret ("I'm sorry, I don't have any information about the "
             ++ relationship ++ " of " ++ subject ++ ".")
  | None =>
      if tone core_thought =? "sarcastic" then
        ret "Oh no, that sounds frustrating. I hope everything is okay!"
      else if mood =? "interrogative" then
        ret "That's a good question. I'm not sure what the answer is."
      else if Py.truthy (Py.of_option (attribute core_thought)) then
        ret (Py.str (Py.of_option (agent core_thought))
             ++ " certainly seems to be "
             ++ Py.str (Py.of_option (attribute core_thought))
             ++ ". That's an interesting observation.")
      else ret "I understand. Thank you for telling me."
  end
  end.

(** *** DialogueManager *)

Record DialogueManager : Type := {
  the_engine           : KE;
  conversation_history : list CoreThought
}.

(** A method of the knowledge engine, called on the manager's field. *)
Definition on_engine {A} (m : M KE A) : M DialogueManager A :=
  fun self =>
    let '(r, ke) := m (the_engine self) in
    (r, {| the_engine := ke;
           conversation_history := conversation_history self |}).

Definition read_history : M DialogueManager (list CoreThought) :=
  fun self => (Ok (conversation_history self), self).

(** [self.conversation_history.append(t)] *)
Definition append_history (t : CoreThought) : M DialogueManager unit :=
  fun self =>
    (Ok tt, {| the_engine := the_engine self;
               conversation_history := conversation_history self ++ [t] |}).

Variable parse_sentence : string -> CoreThought.

Definition handle_message (message : string) (now : datetime)
  : M DialogueManager string :=
  let parsed_thought := parse_sentence message in
  history <- read_history ;;
  let contextual_thought :=
    Context._resolve_context history parsed_thought in
  let nuanced_thought := Nuance.analyze_thought contextual_thought in
  let final_thought := Tone.analyze_thought nuanced_thought in
  append_history final_thought ;;;
  response <- on_engine (generate_response final_thought now) ;;
  ret response.

Definition close_manager : M DialogueManager unit :=
  on_engine (close knowledge_engine).

End Engines.

End Final.

(** ** sclm_interactive_chat.py *)

Module Chat.
Import Thought.

Definition generate_response (final_thought : CoreThought) : string :=
  let mood := mood final_thought in
  let attribute := attribute final_thought in
  let tone := tone final_thought in
  if tone =? "sarcastic" then
    "Oh no, that sounds frustrating. I hope everything is okay!"
  else if mood =? "interrogative" then
    "That's a good question. I'm not sure what the answer is."
  else if Py.truthy (Py.of_option attribute) then
    Py.str (Py.of_option (agent final_thought))
    ++ " certainly seems to be " ++ Py.str (Py.of_option attribute)
    ++ ". It's an interesting observation."
  else "I understand. Thank you for telling me.".

Record DialogueManager : Type := {
  conversation_history : list CoreThought
}.

Section Parser.
Variable parse_sentence : string -> CoreThought.

Definition get_response (message : string) : M DialogueManager string :=
  fun self =>
    let parsed_thought := parse_sentence message in
    let contextual_thought :=
      Context._resolve_context (conversation_history self)
                               parsed_thought in
    let nuanced_thought := Nuance.analyze_thought contextual_thought in
    let final_thought := Tone.analyze_thought nuanced_thought in
    let self' :=
      {| conversation_history :=
           conversation_history self ++ [final_thought] |} in
    let ai_response := generate_response final_thought in
    (Ok ai_response, self').
End Parser.

End Chat.

(** ** Vocabulary of the statements *)

Module Spec.

(** Two strings that differ at most in case. *)
Definition same_up_to_case (a b : string) : Prop := Py.lower a = Py.lower b.

(** [w] occurs in [s] at some position. *)
Definition occurs_in (w s : string) : Prop :=
  exists pre post, s = pre ++ w ++ post.

(** An optional field that holds a non-empty string. *)
Definition present (o : option string) (s : string) : Prop :=
  o = Some s /\ s <> "".

Definition absent (o : option string) : Prop :=
  o = None \/ o = Some "".

(** The agent is the pronoun, in any case. *)
Definition agent_is_it (t : Thought.CoreThought) : Prop :=
  exists a, Thought.agent t = Some a /\ Py.lower a = "it".

(** A relationship the phase 9 engine treats as one-to-many. *)
Definition plural (r : string) : Prop :=
  Py.mem (Py.lower r) Phase9.singular_relationships = false.

Definition singular (r : string) : Prop :=
  In (Py.lower r) Phase9.singular_relationships.

(** The phase 9 table holds, under the key of [(s, r)], a fact equal to
    [f] up to case. *)
Definition knows (rows : list Phase9.row) (s r f : string) : Prop :=
  exists x, In x rows /\ Phase9.subject x = Py.lower s /\
            Phase9.relationship x = Py.lower r /\
            same_up_to_case (Phase9.fact x) f.

(** A phase 9 engine whose connection is open, over the table [rows]. *)
Definition opened (rows : list Phase9.row) : Phase9.KnowledgeGraphEngine :=
  {| Phase9.connection_open := true; Phase9.knowledge := rows |}.

(** A phase 10 engine whose connection is open, over the table [rows]. *)
Definition opened10 (rows : list Phase10.row)
  : Phase10.KnowledgeGraphEngine :=
  {| Phase10.connection_open := true; Phase10.knowledge := rows |}.

(** In a phase 9 table, the rows under a singular key are all mutable, or
    they are one immutable row. *)
Definition constants_stand_alone (rows : list Phase9.row) : Prop :=
  forall s r, In r Phase9.singular_relationships ->
    forallb (fun y => negb (Phase9.is_immutable y))
            (filter (Phase9.where_key s r) rows) = true \/
    exists y, filter (Phase9.where_key s r) rows = [y] /\
              Phase9.is_immutable y = true.

(** A row of the phase 9 table as the initialisation writes it. *)
Definition constant_row (s r f : string) (now : datetime) : Phase9.row :=
  {| Phase9.subject := s; Phase9.relationship := r; Phase9.fact := f;
     Phase9.is_immutable := true; Phase9.source := "System_Constant";
     Phase9.timestamp := now |}.

(** The phase 10 row [old] with its fact, source and timestamp replaced. *)
Definition updated_row (old : Phase10.row) (f src : string) (now : datetime)
  : Phase10.row :=
  {| Phase10.subject := Phase10.subject old;
     Phase10.relationship := Phase10.relationship old;
     Phase10.fact := f; Phase10.is_immutable := Phase10.is_immutable old;
     Phase10.source := src; Phase10.timestamp := now |}.

(** The row the phase 10 [learn_fact] writes. *)
Definition learned_row10 (s r f src : string) (now : datetime)
  : Phase10.row :=
  {| Phase10.subject := Py.lower s; Phase10.relationship := Py.lower r;
     Phase10.fact := f; Phase10.is_immutable := false;
     Phase10.source := src; Phase10.timestamp := now |}.

(** The rows of a phase 10 table that are not under the key of [(s, r)]. *)
Definition other_keys (s r : string) (rows : list Phase10.row)
  : list Phase10.row :=
  filter (fun x => negb (Phase10.where_key (Py.lower s) (Py.lower r) x)) rows.

(** The row [learn_fact] writes. *)
Definition learned_row (s r f src : string) (now : datetime) : Phase9.row :=
  {| Phase9.subject := Py.lower s; Phase9.relationship := Py.lower r;
     Phase9.fact := f; Phase9.is_immutable := false;
     Phase9.source := src; Phase9.timestamp := now |}.

(** The thought of the end-to-end scenario: "the ball is square". *)
Definition ball_is_square : Thought.CoreThought :=
  {| Thought.input_sentence := "The ball is square.";
     Thought.action := None; Thought.agent := None;
     Thought.object := None; Thought.destination := None;
     Thought.tense := None; Thought.mood := "declarative_fact";
     Thought.attribute := None; Thought.urgency := "neutral";
     Thought.mood_connotation := "neutral"; Thought.tone := "neutral";
     Thought.entities := []; Thought.preposition := None;
     Thought.tense_aspect := None;
     Thought.learning_fact := Some ("ball", "shape", "square");
     Thought.query_fact := None |}.

(** An action thought: the sentence, its verb, agent and object. *)
Definition action_thought (sentence : string) (verb : string)
           (agent object : option string) : Thought.CoreThought :=
  {| Thought.input_sentence := sentence;
     Thought.action := Some verb; Thought.agent := agent;
     Thought.object := object; Thought.destination := None;
     Thought.tense := Some "past"; Thought.mood := "indicative";
     Thought.attribute := None; Thought.urgency := "neutral";
     Thought.mood_connotation := "neutral"; Thought.tone := "neutral";
     Thought.entities := []; Thought.preposition := None;
     Thought.tense_aspect := None;
     Thought.learning_fact := None; Thought.query_fact := None |}.

End Spec.

(** ** sclm_phase_10_interactive_graph.py: relationship inference *)

Module Parser10.

(** [relationship_keywords], in the order the dict is written. *)
Definition relationship_keywords : list (string * list string) :=
  [ ("shape", ["round"; "square"; "triangular"; "flat"; "curved"]);
    ("color", ["red"; "blue"; "green"; "yellow"; "black"; "white"]) ].

(** The loop over [relationship_keywords.items()], with its default. *)
Fixpoint infer_from (items : list (string * list string))
         (fact_text : string) : string :=
  match items with
  | [] => "state"
  | (rel, keywords) :: rest =>
      if Py.mem (Py.lower fact_text) keywords then rel
      else infer_from rest fact_text
  end.

Definition _infer_relationship (fact_text : string) : string :=
  infer_from relationship_keywords fact_text.

End Parser10.

(** ** The interactive loops

    The [while True] loops of the [__main__] blocks. [input()] reads the
    next line of [inputs] and raises [EOFError] when there is none; the
    lines printed by the loop are returned in order. *)

Module Session.

(** How a loop ends: the user typed quit, the input ran out, or a turn
    raised. *)
Inductive ending : Type :=
| Quit
| EndOfInput
| Failed (e : exn).

Section Chat_loop.
Variable parse_sentence : string -> Thought.CoreThought.

(** The loop of [sclm_interactive_chat.py]. *)
Fixpoint chat_loop (inputs : list string) (ai : Chat.DialogueManager)
  : list string * ending * Chat.DialogueManager :=
  match inputs with
  | [] => ([], EndOfInput, ai)
  | user_input :: rest =>
      if Py.lower user_input =? "quit" then (["AI: Goodbye!"], Quit, ai)
      else
        match Chat.get_response parse_sentence user_input ai with
        | (Ok ai_response, ai') =>
            let '(printed, e, ai'') := chat_loop rest ai' in
            (("AI: " ++ ai_response) :: printed, e, ai'')
        | (Raised e, ai') => ([], Failed e, ai')
        end
  end.

(** [ai = DialogueManager()] and the loop. *)
Definition chat_main (inputs : list string)
  : list string * ending * Chat.DialogueManager :=
  chat_loop inputs {| Chat.conversation_history := [] |}.

End Chat_loop.

Section Graph_loop.
Variable parse_sentence : string -> Thought.CoreThought.

(** The loop of [sclm_phase_10_interactive_graph.py]; each line comes with
    the reading of the clock in its turn. *)
Fixpoint graph_loop (inputs : list (string * datetime))
         (kge : Phase10.KnowledgeGraphEngine)
  : list string * ending * Phase10.KnowledgeGraphEngine :=
  match inputs with
  | [] => ([], EndOfInput, kge)
  | (user_input, now) :: rest =>
      if Py.lower user_input =? "quit" then ([], Quit, kge)
      else
        match Phase10.handle_message parse_sentence user_input now kge with
        | (Ok ai_response, kge') =>
            let '(printed, e, kge'') := graph_loop rest kge' in
            (("AI: " ++ ai_response) :: printed, e, kge'')
        | (Raised e, kge') => ([], Failed e, kge')
        end
  end.

(** [ai = DialogueManager()], then the loop inside [try], then the
    [finally] block: close the engine and say goodbye. *)
Definition graph_main (db : list Phase10.row) (start : datetime)
           (inputs : list (string * datetime))
  : list string * ending * Phase10.KnowledgeGraphEngine :=
  let '(printed, e, kge) := graph_loop inputs (Phase10.new db start) in
  ((printed ++ ["AI: Goodbye!"])%list, e, snd (Phase10.close kge)).

End Graph_loop.

End Session.

(** ** More vocabulary *)

Module Inv.

(** The user's lines up to the first one that is "quit" in any case. *)
Fixpoint before_quit {A} (line : A -> string) (inputs : list A) : list A :=
  match inputs with
  | [] => []
  | x :: rest =>
      if Py.lower (line x) =? "quit" then [] else x :: before_quit line rest
  end.

(** Some line is "quit" in any case. *)
Definition has_quit {A} (line : A -> string) (inputs : list A) : bool :=
  existsb (fun x => Py.lower (line x) =? "quit") inputs.

(** A phase 9 row whose key is in lower case. *)
Definition folded (x : Phase9.row) : Prop :=
  Py.lower (Phase9.subject x) = Phase9.subject x /\
  Py.lower (Phase9.relationship x) = Phase9.relationship x.

(** A row as [learn_fact] writes it: mutable, under a lower-case key. *)
Definition user_row (x : Phase9.row) : Prop :=
  Phase9.is_immutable x = false /\ folded x.

(** The table of a new database followed by rows [learn_fact] wrote. *)
Definition seeded_then_learned (rows : list Phase9.row) : Prop :=
  exists now learned,
    rows = (Phase9.knowledge (Phase9.new [] now) ++ learned)%list /\
    Forall user_row learned.



(** A phase 10 thought that asks for the fact under [(s, r)]. *)
Definition asks (th : Thought.CoreThought) (s r : string) : Prop :=
  Thought.mood th = "interrogative_fact" /\
  Thought.query_fact th = Some (s, r).

(** A phase 10 thought that states the fact [f] under [(s, r)]. *)
Definition states (th : Thought.CoreThought) (s r f : string) : Prop :=
  Thought.mood th = "declarative_fact" /\
  Thought.learning_fact th = Some (s, r, f).

(** A thought that none of the two factual rules takes. *)
Definition not_factual (th : Thought.CoreThought) : Prop :=
  (Thought.mood th <> "declarative_fact" \/ Thought.learning_fact th = None)
  /\
  (Thought.mood th <> "interrogative_fact" \/ Thought.query_fact th = None).

End Inv.

(** ** The methods that fold case, over any case mapping

    Python's [str.lower] follows the Unicode case mapping, a table that is
    not part of the source. The methods that call it are given here with
    the mapping as the parameter [lower]; the methods of [Phase9],
    [Phase10] and [Parser10] above are these at [Py.lower], the mapping
    restricted to ASCII. *)

Module Phase9U.
Import Phase9.

Section Lower.
Variable lower : string -> string.

Definition _initialize_database (now : datetime)
  : M KnowledgeGraphEngine unit :=
  count <- select (@length row) ;;
  if (count =? 0)%nat then
    for_each constants (fun '(subj, rel, fact) =>
      insert {| subject := lower subj; relationship := lower rel;
                fact := fact; is_immutable := true;
                source := "System_Constant"; timestamp := now |})
  else ret tt.

Definition new (db : list row) (now : datetime) : KnowledgeGraphEngine :=
  snd (_initialize_database now
         {| connection_open := true; knowledge := db |}).

Definition query_facts (subject relationship : string)
  : M KnowledgeGraphEngine (list string) :=
  select (fun rows =>
    map fact (filter (where_key (lower subject) (lower relationship))
                     rows)).

Definition learn_fact (subject relationship fact source : string)
           (now : datetime) : M KnowledgeGraphEngine string :=
  let subj_lower := lower subject in
  let rel_lower := lower relationship in
  let fact_lower := lower fact in
  existing_facts <-
    select (fun rows =>
      map (fun x => (Phase9.fact x, is_immutable x))
          (filter (where_key subj_lower rel_lower) rows)) ;;
  let learn :=
    insert {| subject := subj_lower; relationship := rel_lower;
              fact := fact; is_immutable := false;
              source := source; timestamp := now |} ;;;
    ret "LEARNED_SUCCESSFULLY" in
  match existing_facts with
  | [] => learn
  | (_, first_is_immutable) :: _ =>
      if Py.mem rel_lower singular_relationships && first_is_immutable
      then ret "CONFLICT_WITH_CONSTANT"
      else if existsb (fun '(existing_fact, _) =>
                         fact_lower =? lower existing_fact)
                      existing_facts
      then ret "ALREADY_KNOWN"
      else learn
  end.

(** The states the engine's own operations lead to from a new database
    file. *)
Inductive reachable : KnowledgeGraphEngine -> Prop :=
| reach_new now : reachable (new [] now)
| reach_learn self s r f src now :
    reachable self -> reachable (snd (learn_fact s r f src now self))
| reach_close self :
    reachable self -> reachable (snd (close self))
| reach_reopen self now :
    reachable self -> reachable (new (knowledge self) now).

End Lower.
End Phase9U.

Module Phase10U.
Import Phase10.

Section Lower.
Variable lower : string -> string.

Definition query_facts (subject relationship : string)
  : M KnowledgeGraphEngine (list string) :=
  select (fun rows =>
    map fact (filter (where_key (lower subject) (lower relationship))
                     rows)).

Definition learn_fact (subject relationship fact source : string)
           (now : datetime) : M KnowledgeGraphEngine string :=
  let s_lower := lower subject in
  let r_lower := lower relationship in
  immutable_flag <-
    select (fun rows =>
      hd_error (map is_immutable (filter (where_key s_lower r_lower) rows))) ;;
  match immutable_flag with
  | Some true => ret "CONFLICT_WITH_CONSTANT"
  | _ =>
      is_update <-
        select (fun rows =>
          match hd_error (filter (where_key s_lower r_lower) rows) with
          | Some _ => true
          | None => false
          end) ;;
      insert_or_replace
        {| subject := s_lower; relationship := r_lower; fact := fact;
           is_immutable := false; source := source; timestamp := now |} ;;;
      if is_update : bool then ret "UPDATED_BELIEF"
      else ret "LEARNED_SUCCESSFULLY"
  end.

End Lower.
End Phase10U.

Module Parser10U.

Section Lower.
Variable lower : string -> string.

Fixpoint infer_from (items : list (string * list string))
         (fact_text : string) : string :=
  match items with
  | [] => "state"
  | (rel, keywords) :: rest =>
      if Py.mem (lower fact_text) keywords then rel
      else infer_from rest fact_text
  end.

Definition _infer_relationship (fact_text : string) : string :=
  infer_from Parser10.relationship_keywords fact_text.

End Lower.
End Parser10U.

(** ** Vocabulary over any case mapping *)

Module SpecU.

Section Lower.
Variable lower : string -> string.

(** A relationship the phase 9 engine treats as one-to-many. *)
Definition plural (r : string) : Prop :=
  Py.mem (lower r) Phase9.singular_relationships = false.

(** The phase 9 table holds, under the key of [(s, r)], a fact that the
    mapping sends where it sends [f]. *)
Definition knows (rows : list Phase9.row) (s r f : string) : Prop :=
  exists x, In x rows /\ Phase9.subject x = lower s /\
            Phase9.relationship x = lower r /\
            lower (Phase9.fact x) = lower f.

(** The row the phase 9 [learn_fact] writes. *)
Definition learned_row (s r f src : string) (now : datetime) : Phase9.row :=
  {| Phase9.subject := lower s; Phase9.relationship := lower r;
     Phase9.fact := f; Phase9.is_immutable := false;
     Phase9.source := src; Phase9.timestamp := now |}.

(** A phase 9 row whose key the mapping leaves as it is. *)
Definition folded (x : Phase9.row) : Prop :=
  lower (Phase9.subject x) = Phase9.subject x /\
  lower (Phase9.relationship x) = Phase9.relationship x.

(** The row the phase 10 [learn_fact] writes. *)
Definition learned_row10 (s r f src : string) (now : datetime)
  : Phase10.row :=
  {| Phase10.subject := lower s; Phase10.relationship := lower r;
     Phase10.fact := f; Phase10.is_immutable := false;
     Phase10.source := src; Phase10.timestamp := now |}.

(** The rows of a phase 10 table that are not under the key of [(s, r)]. *)
Definition other_keys (s r : string) (rows : list Phase10.row)
  : list Phase10.row :=
  filter (fun x => negb (Phase10.where_key (lower s) (lower r) x)) rows.

End Lower.

(** Every field but the agent is the same in the two thoughts. *)
Definition same_but_agent (t t' : Thought.CoreThought) : Prop :=
  Thought.input_sentence t' = Thought.input_sentence t /\
  Thought.action t' = Thought.action t /\
  Thought.object t' = Thought.object t /\
  Thought.destination t' = Thought.destination t /\
  Thought.tense t' = Thought.tense t /\
  Thought.mood t' = Thought.mood t /\
  Thought.attribute t' = Thought.attribute t /\
  Thought.urgency t' = Thought.urgency t /\
  Thought.mood_connotation t' = Thought.mood_connotation t /\
  Thought.tone t' = Thought.tone t /\
  Thought.entities t' = Thought.entities t /\
  Thought.preposition t' = Thought.preposition t /\
  Thought.tense_aspect t' = Thought.tense_aspect t /\
  Thought.learning_fact t' = Thought.learning_fact t /\
  Thought.query_fact t' = Thought.query_fact t.

End SpecU.

(** * Properties *)

Unset Implicit Arguments.

(** ** Python strings *)

Lemma mem_In (x : string) (l : list string) :
  Py.mem x l = true <-> In x l.
Proof.
  unfold Py.mem. rewrite existsb_exists. split.
  - intros [y [Hy He]]. apply String.eqb_eq in He. now subst.
  - intros H. exists x. split; [assumption | apply String.eqb_refl].
Qed.

Lemma prefix_spec (p s : string) :
  String.prefix p s = true <-> exists post, s = p ++ post.
Proof.
  revert s. induction p as [|c p IH]; intros s.
  - split; [intros _; now exists s | destruct s; reflexivity].
  - destruct s as [|d s]; simpl.
    + split; [discriminate | intros [post H]; discriminate].
    + destruct (Ascii.ascii_dec c d) as [->|Hne].
      * rewrite IH. split; intros [post H]; exists post.
        -- now rewrite H.
        -- now injection H.
      * split; [discriminate |].
        intros [post H]. injection H as H1 _. now elim Hne.
Qed.

Lemma contains_spec (w s : string) :
  Py.contains w s = true <-> Spec.occurs_in w s.
Proof.
  unfold Spec.occurs_in. induction s as [|c s IH]; unfold Py.contains;
    fold Py.contains.
  - rewrite orb_false_r, prefix_spec. split.
    + intros [post H]. now exists "", post.
    + intros [pre [post H]]. destruct pre; simpl in H.
      * now exists post.
      * discriminate.
  - rewrite orb_true_iff, IH, prefix_spec. split.
    + intros [[post H] | [pre [post H]]].
      * now exists "", post.
      * exists (String c pre), post. simpl. now rewrite H.
    + intros [pre [post H]]. destruct pre as [|d pre]; simpl in H.
      * left. now exists post.
      * right. injection H as _ H. now exists pre, post.
Qed.

Lemma existsb_map {A B} (f : B -> bool) (g : A -> B) (l : list A) :
  existsb f (map g l) = existsb (fun x => f (g x)) l.
Proof.
  induction l as [|a l IH]; simpl; [reflexivity | now rewrite IH].
Qed.

(** ** The phase 9 knowledge graph engine *)

Section Phase9_facts.
Import Phase9.

Lemma open_engine self :
  connection_open self = true -> self = Spec.opened (knowledge self).
Proof. destruct self as [o rows]; simpl; intros ->; reflexivity. Qed.

Lemma query_facts_open rows S R :
  query_facts S R (Spec.opened rows) =
  (Ok (map fact (filter (where_key (Py.lower S) (Py.lower R)) rows)),
   Spec.opened rows).
Proof. reflexivity. Qed.

(** What [learn_fact] does on an open connection, by the rows already
    under the key. *)
Lemma learn_fact_open rows s r f src now :
  learn_fact s r f src now (Spec.opened rows) =
  let existing := filter (where_key (Py.lower s) (Py.lower r)) rows in
  let learned :=
    (Ok "LEARNED_SUCCESSFULLY",
     Spec.opened (rows ++ [Spec.learned_row s r f src now])) in
  match existing with
  | [] => learned
  | x :: _ =>
      if Py.mem (Py.lower r) singular_relationships && is_immutable x
      then (Ok "CONFLICT_WITH_CONSTANT", Spec.opened rows)
      else if existsb (fun y => Py.lower f =? Py.lower (fact y)) existing
      then (Ok "ALREADY_KNOWN", Spec.opened rows)
      else learned
  end.
Proof.
  unfold learn_fact, bind, select, Spec.opened; cbn -[Py.mem existsb].
  destruct (filter (where_key (Py.lower s) (Py.lower r)) rows)
    as [|x existing] eqn:E; cbn -[Py.mem existsb]; [reflexivity |].
  destruct (Py.mem (Py.lower r) singular_relationships && is_immutable x);
    [reflexivity |].
  change ((fact x, is_immutable x)
          :: map (fun y => (fact y, is_immutable y)) existing)
    with (map (fun y => (fact y, is_immutable y)) (x :: existing)).
  rewrite existsb_map.
  destruct (existsb _ (x :: existing)); reflexivity.
Qed.

Lemma learn_fact_closed rows s r f src now :
  learn_fact s r f src now
    {| connection_open := false; knowledge := rows |} =
  (Raised ProgrammingError,
   {| connection_open := false; knowledge := rows |}).
Proof. reflexivity. Qed.

(** The outcomes of [learn_fact], and what each does to the table. *)
Lemma learn_fact_cases self s r f src now :
  connection_open self = true ->
  (learn_fact s r f src now self = (Ok "CONFLICT_WITH_CONSTANT", self)) \/
  (learn_fact s r f src now self = (Ok "ALREADY_KNOWN", self)) \/
  (learn_fact s r f src now self =
     (Ok "LEARNED_SUCCESSFULLY",
      Spec.opened (knowledge self ++ [Spec.learned_row s r f src now]))).
Proof.
  intros Hopen. destruct self as [o rows]. simpl in Hopen. subst o.
  change {| connection_open := true; knowledge := rows |}
    with (Spec.opened rows).
  rewrite learn_fact_open. cbn zeta. simpl knowledge.
  destruct (filter _ rows) as [|x existing]; [auto |].
  destruct (Py.mem _ _ && is_immutable x); [auto |].
  destruct (existsb _ (x :: existing)); auto.
Qed.

End Phase9_facts.

(** Decide the comparisons of two string constants in the goal. *)
Ltac eval_closed_eqb :=
  repeat match goal with
         | |- context [String.eqb ?a ?b] =>
             let v := eval vm_compute in (String.eqb a b) in
             lazymatch v with
             | true => change (String.eqb a b) with true
             | false => change (String.eqb a b) with false
             end
         end.

Section Phase9_invariant.
Import Phase9.

Lemma new_knowledge db now :
  knowledge (new db now) =
  match db with
  | [] => knowledge (new [] now)
  | _ :: _ => db
  end.
Proof. destruct db; reflexivity. Qed.

Lemma new_open db now : connection_open (new db now) = true.
Proof. destruct db; reflexivity. Qed.

(** The table of a new database file. *)
Lemma new_empty now :
  knowledge (new [] now) =
  [ Spec.constant_row "ball" "shape" "round" now;
    Spec.constant_row "ball" "can_be_action" "thrown" now;
    Spec.constant_row "ball" "can_be_action" "caught" now;
    Spec.constant_row "car" "has_part" "engine" now;
    Spec.constant_row "car" "has_part" "wheel" now;
    Spec.constant_row "france" "capital" "Paris" now ].
Proof. reflexivity. Qed.

Lemma seeded_constants_stand_alone now :
  Spec.constants_stand_alone (knowledge (new [] now)).
Proof.
  intros s r Hr. simpl in Hr. rewrite new_empty.
  destruct Hr as [<- | [<- | []]];
    unfold where_key, Spec.constant_row; cbn -[String.eqb];
    eval_closed_eqb; rewrite ?andb_false_r, ?andb_true_r.
  - destruct ("ball" =? s).
    + right. eexists. split; reflexivity.
    + left. reflexivity.
  - destruct ("france" =? s).
    + right. eexists. split; reflexivity.
    + left. reflexivity.
Qed.

Lemma learn_fact_keeps_constants_alone self s r f src now :
  Spec.constants_stand_alone (knowledge self) ->
  Spec.constants_stand_alone (knowledge (snd (learn_fact s r f src now self))).
Proof.
  intros Inv. destruct self as [[|] rows]; [| exact Inv].
  change {| connection_open := true; knowledge := rows |}
    with (Spec.opened rows).
  simpl in Inv. rewrite learn_fact_open. cbn zeta.
  assert (Hadd :
    (forall x rest, filter (where_key (Py.lower s) (Py.lower r)) rows
                    = x :: rest ->
       Py.mem (Py.lower r) singular_relationships && is_immutable x = false) ->
    Spec.constants_stand_alone (rows ++ [Spec.learned_row s r f src now])).
  { intros Hfirst s0 r0 Hr0. rewrite filter_app, forallb_app.
    destruct (Inv s0 r0 Hr0) as [Hmut | [y [Hy Himm]]].
    - left. rewrite Hmut. simpl.
      destruct (where_key s0 r0 _); reflexivity.
    - simpl. destruct (where_key s0 r0 (Spec.learned_row s r f src now))
        eqn:Hk.
      + exfalso. unfold where_key in Hk. simpl in Hk.
        apply andb_true_iff in Hk. destruct Hk as [Hs Hr].
        apply String.eqb_eq in Hs, Hr. subst s0 r0.
        specialize (Hfirst y [] Hy). rewrite Himm, andb_true_r in Hfirst.
        apply mem_In in Hr0. congruence.
      + right. exists y. rewrite Hy. split; [reflexivity | assumption]. }
  destruct (filter (where_key (Py.lower s) (Py.lower r)) rows)
    as [|x existing] eqn:E.
  - simpl. apply Hadd. intros; discriminate.
  - destruct (Py.mem _ _ && is_immutable x) eqn:Hc; [exact Inv |].
    destruct (existsb _ (x :: existing)); [exact Inv |].
    simpl. apply Hadd. intros x' rest Hx'. now injection Hx' as <- _.
Qed.

Lemma reachable_constants_stand_alone self :
  reachable self -> Spec.constants_stand_alone (knowledge self).
Proof.
  induction 1 as [now | self s r f src now _ IH | self _ IH | self now _ IH].
  - apply seeded_constants_stand_alone.
  - now apply learn_fact_keeps_constants_alone.
  - exact IH.
  - rewrite new_knowledge. destruct (knowledge self).
    + apply seeded_constants_stand_alone.
    + exact IH.
Qed.

End Phase9_invariant.

Section Phase9_claims.
Import Phase9.


Lemma learn_fact_ok_open self s r f src now o self' :
  learn_fact s r f src now self = (Ok o, self') ->
  connection_open self = true.
Proof.
  destruct self as [[|] rows]; [reflexivity |].
  rewrite learn_fact_closed. discriminate.
Qed.

(** C10, as stated, fails: a learn that answers [ALREADY_KNOWN] stores
    nothing, and the query then returns the fact in the case of the row that
    was there, not in the case given. *)
Lemma round_trip_loses_case_of_known_fact :
  let self := new [] 0%Z in
  let out := learn_fact "car" "has_part" "ENGINE" "user" 1%Z self in
  fst out = Ok "ALREADY_KNOWN" /\
  fst (query_facts "Car" "Has_Part" (snd out)) = Ok ["engine"; "wheel"] /\
  ~ In "ENGINE" ["engine"; "wheel"].
Proof.
  repeat split. intros [H | [H | []]]; discriminate.
Qed.

(** In a reachable table an immutable row under a singular key is the only
    row under that key. *)
Lemma constant_is_alone self s r x :
  reachable self -> Spec.singular r ->
  In x (knowledge self) ->
  subject x = Py.lower s -> relationship x = Py.lower r ->
  is_immutable x = true ->
  filter (where_key (Py.lower s) (Py.lower r)) (knowledge self) = [x].
Proof.
  intros Hreach Hsing Hin Hs Hr Himm.
  assert (Hx : In x (filter (where_key (Py.lower s) (Py.lower r))
                            (knowledge self))).
  { apply filter_In. split; [assumption |].
    unfold where_key. rewrite Hs, Hr. now rewrite !String.eqb_refl. }
  destruct (reachable_constants_stand_alone self Hreach
              (Py.lower s) (Py.lower r) Hsing) as [Hmut | [y [Hy _]]].
  - rewrite forallb_forall in Hmut. specialize (Hmut x Hx).
    rewrite Himm in Hmut. discriminate.
  - rewrite Hy in Hx |- *. destruct Hx as [-> | []]. reflexivity.
Qed.

(** C2. In a reachable engine with an open connection, when the table holds
    an immutable row under the key of a singular relationship, learning a
    different fact for that key answers [CONFLICT_WITH_CONSTANT] and leaves
    the engine as it was; the query of the key returns the original fact
    and nothing else. *)
Theorem constant_conflict :
  forall self s r f2 src t x,
    reachable self -> connection_open self = true ->
    Spec.singular r ->
    In x (knowledge self) ->
    subject x = Py.lower s -> relationship x = Py.lower r ->
    is_immutable x = true ->
    fact x <> f2 ->
    learn_fact s r f2 src t self = (Ok "CONFLICT_WITH_CONSTANT", self) /\
    query_facts s r self = (Ok [fact x], self).
Proof.
  intros self s r f2 src t x Hreach Hopen Hsing Hin Hs Hr Himm _.
  pose proof (constant_is_alone self s r x Hreach Hsing Hin Hs Hr Himm) as Hx.
  rewrite (open_engine self Hopen) at 1 2 3 4.
  rewrite learn_fact_open, query_facts_open. cbn zeta.
  unfold Spec.opened at 1 4; simpl knowledge. rewrite Hx.
  apply mem_In in Hsing. rewrite Hsing, Himm. simpl.
  rewrite <- (open_engine self Hopen). split; reflexivity.
Qed.

(** C2, at the seeded table: the ball stays round. *)
Lemma constant_conflict_witness :
  learn_fact "Ball" "Shape" "square" "user" 1%Z (new [] 0%Z)
    = (Ok "CONFLICT_WITH_CONSTANT", new [] 0%Z) /\
  query_facts "Ball" "Shape" (new [] 0%Z) = (Ok ["round"], new [] 0%Z).
Proof.
  apply (constant_conflict (new [] 0%Z) "Ball" "Shape" "square" "user" 1%Z
           (Spec.constant_row "ball" "shape" "round" 0%Z)).
  - apply reach_new.
  - reflexivity.
  - left. reflexivity.
  - left. reflexivity.
  - reflexivity.
  - reflexivity.
  - reflexivity.
  - discriminate.
Defined.

End Phase9_claims.

(** ** The phase 10 knowledge graph engine and response engine *)

Section Phase10_facts.
Import Phase10.

Lemma open_engine10 self :
  connection_open self = true -> self = Spec.opened10 (knowledge self).
Proof. destruct self as [o rows]; simpl; intros ->; reflexivity. Qed.

Lemma query_facts_open10 rows S R :
  query_facts S R (Spec.opened10 rows) =
  (Ok (map fact (filter (where_key (Py.lower S) (Py.lower R)) rows)),
   Spec.opened10 rows).
Proof. reflexivity. Qed.

(** What [learn_fact] does on an open connection, by the first row under
    the key. *)
Lemma learn_fact_open10 rows s r f src now :
  learn_fact s r f src now (Spec.opened10 rows) =
  let replaced :=
    Spec.opened10 (Spec.other_keys s r rows
                   ++ [Spec.learned_row10 s r f src now]) in
  match filter (where_key (Py.lower s) (Py.lower r)) rows with
  | [] => (Ok "LEARNED_SUCCESSFULLY", replaced)
  | x :: _ =>
      if is_immutable x then (Ok "CONFLICT_WITH_CONSTANT", Spec.opened10 rows)
      else (Ok "UPDATED_BELIEF", replaced)
  end.
Proof.
  unfold learn_fact, bind, select, insert_or_replace, Spec.opened10,
    Spec.other_keys, Spec.learned_row10.
  cbn -[filter].
  destruct (filter (where_key (Py.lower s) (Py.lower r)) rows)
    as [|x existing] eqn:E; cbn -[filter]; rewrite ?E; cbn -[filter];
    [reflexivity |].
  destruct (is_immutable x); cbn -[filter]; rewrite ?E; reflexivity.
Qed.

Lemma key_where_key x s r :
  where_key s r x = true <-> key x = (s, r).
Proof.
  unfold where_key, key. rewrite andb_true_iff, !String.eqb_eq.
  split; [intros [-> ->]; reflexivity | intros H; now injection H].
Qed.

Lemma unique_filter rows x :
  unique_keys rows -> In x rows ->
  filter (where_key (subject x) (relationship x)) rows = [x].
Proof.
  unfold unique_keys. induction rows as [|y rows IH]; simpl; [tauto |].
  intros Hnd Hin. inversion Hnd as [|k ks Hnotin Hnd']; subst.
  assert (Hrest : forall z, In z rows -> key z = key y ->
                            False).
  { intros z Hz Hk. apply Hnotin. rewrite <- Hk. now apply in_map. }
  destruct Hin as [-> | Hin].
  - replace (where_key (subject x) (relationship x) x) with true
      by (symmetry; now apply key_where_key).
    f_equal. clear IH Hnd Hnd' Hnotin.
    induction rows as [|z rows IH]; [reflexivity |]. simpl.
    destruct (where_key (subject x) (relationship x) z) eqn:Hk.
    + exfalso. apply key_where_key in Hk. apply (Hrest z); [now left |].
      exact Hk.
    + apply IH. intros w Hw. apply Hrest. now right.
  - destruct (where_key (subject x) (relationship x) y) eqn:Hk.
    + exfalso. apply key_where_key in Hk. apply (Hrest x Hin).
      now rewrite Hk.
    + now apply IH.
Qed.

Lemma other_keys_unique s r rows :
  unique_keys rows -> unique_keys (Spec.other_keys s r rows).
Proof.
  unfold unique_keys, Spec.other_keys.
  induction rows as [|y rows IH]; simpl; [auto |].
  intros Hnd. inversion Hnd as [|k ks Hnotin Hnd']; subst.
  destruct (negb _); [| now apply IH].
  simpl. constructor; [| now apply IH].
  intros Hin. apply Hnotin. apply in_map_iff in Hin.
  destruct Hin as [z [Hz Hin]]. apply filter_In in Hin.
  rewrite <- Hz. apply in_map. tauto.
Qed.

(** Replacing the row under a key keeps the keys unique. *)
Lemma replaced_unique s r f src now rows :
  unique_keys rows ->
  unique_keys (Spec.other_keys s r rows ++ [Spec.learned_row10 s r f src now]).
Proof.
  intros Hnd. unfold unique_keys. rewrite map_app. simpl.
  apply NoDup_app;
    [now apply other_keys_unique | repeat constructor; simpl; tauto |].
  intros k Hin [<- | []]. apply in_map_iff in Hin.
  destruct Hin as [z [Hz Hin]]. apply filter_In in Hin.
  destruct Hin as [_ Hk].
  change (key (Spec.learned_row10 s r f src now))
    with (Py.lower s, Py.lower r) in Hz.
  apply key_where_key in Hz. rewrite Hz in Hk. discriminate.
Qed.

Lemma learn_fact_keeps_unique self s r f src now :
  unique_keys (knowledge self) ->
  unique_keys (knowledge (snd (learn_fact s r f src now self))).
Proof.
  intros Hnd. destruct self as [[|] rows]; [| exact Hnd].
  change {| connection_open := true; knowledge := rows |}
    with (Spec.opened10 rows).
  rewrite learn_fact_open10. cbn zeta. simpl in Hnd.
  destruct (filter _ rows) as [|x existing].
  - now apply replaced_unique.
  - destruct (is_immutable x); [exact Hnd | now apply replaced_unique].
Qed.

Lemma new_knowledge10 db now :
  knowledge (new db now) =
  [ {| subject := "ball"; relationship := "shape"; fact := "round";
       is_immutable := true; source := "System_Constant";
       timestamp := now |};
    {| subject := "france"; relationship := "capital"; fact := "Paris";
       is_immutable := true; source := "System_Constant";
       timestamp := now |} ].
Proof. reflexivity. Qed.

Lemma new_unique db now : unique_keys (knowledge (new db now)).
Proof.
  rewrite new_knowledge10. unfold unique_keys. simpl.
  repeat constructor; simpl; intuition discriminate.
Qed.

End Phase10_facts.

Section Phase10_claims.
Import Phase10.

Lemma other_keys_none s r rows :
  filter (where_key (Py.lower s) (Py.lower r)) (Spec.other_keys s r rows) = [].
Proof.
  unfold Spec.other_keys. induction rows as [|x rows IH]; [reflexivity |].
  simpl. destruct (where_key (Py.lower s) (Py.lower r) x) eqn:Hk; simpl.
  - exact IH.
  - now rewrite Hk.
Qed.

Lemma where_key_learned_row10 s r f src now :
  where_key (Py.lower s) (Py.lower r) (Spec.learned_row10 s r f src now)
  = true.
Proof. unfold where_key; simpl. now rewrite !String.eqb_refl. Qed.

Lemma replaced_rows_under_key s r f src now rows :
  filter (where_key (Py.lower s) (Py.lower r))
         (Spec.other_keys s r rows ++ [Spec.learned_row10 s r f src now])
  = [Spec.learned_row10 s r f src now].
Proof.
  rewrite filter_app, other_keys_none. simpl.
  now rewrite where_key_learned_row10.
Qed.

(** C1. In the phase 10 engine, whose table is constrained by
    [UNIQUE(subject, relationship)], when the row under the key of
    [(subject, relationship)] is mutable, [learn_fact] answers
    [UPDATED_BELIEF] and the row is replaced by one with the same key and
    the new fact, source and timestamp; the key still has exactly one row,
    the keys are still unique, and the query returns the new fact alone.
    This holds for every relationship, the singular ones among them. *)
Theorem mutable_record_is_replaced :
  forall self s r f src t old,
    connection_open self = true ->
    unique_keys (knowledge self) ->
    In old (knowledge self) ->
    subject old = Py.lower s -> relationship old = Py.lower r ->
    is_immutable old = false ->
    exists self',
      learn_fact s r f src t self = (Ok "UPDATED_BELIEF", self') /\
      knowledge self' =
        (Spec.other_keys s r (knowledge self)
         ++ [Spec.updated_row old f src t])%list /\
      filter (where_key (Py.lower s) (Py.lower r)) (knowledge self')
        = [Spec.updated_row old f src t] /\
      unique_keys (knowledge self') /\
      query_facts s r self' = (Ok [f], self').
Proof.
  intros self s r f src t old Hopen Hnd Hin Hs Hr Hmut.
  pose proof (unique_filter _ _ Hnd Hin) as Hold. rewrite Hs, Hr in Hold.
  assert (Hrow : Spec.updated_row old f src t
                 = Spec.learned_row10 s r f src t).
  { unfold Spec.updated_row, Spec.learned_row10. now rewrite Hs, Hr, Hmut. }
  rewrite Hrow, (open_engine10 self Hopen). simpl knowledge.
  eexists. rewrite learn_fact_open10. cbn zeta. rewrite Hold, Hmut.
  split; [reflexivity |]. simpl knowledge.
  split; [reflexivity |].
  split; [apply replaced_rows_under_key |].
  split; [now apply replaced_unique |].
  rewrite query_facts_open10, replaced_rows_under_key. reflexivity.
Qed.

(** C1, at work: the moon was learned to be round, and is now flat. *)
Lemma mutable_record_is_replaced_witness :
  let self := snd (learn_fact "moon" "shape" "round" "user" 1%Z
                              (new [] 0%Z)) in
  let old := Spec.learned_row10 "moon" "shape" "round" "user" 1%Z in
  exists self',
    learn_fact "Moon" "Shape" "flat" "book" 2%Z self
      = (Ok "UPDATED_BELIEF", self') /\
    knowledge self' =
      (Spec.other_keys "Moon" "Shape" (knowledge self)
       ++ [Spec.updated_row old "flat" "book" 2%Z])%list /\
    filter (where_key (Py.lower "Moon") (Py.lower "Shape")) (knowledge self')
      = [Spec.updated_row old "flat" "book" 2%Z] /\
    unique_keys (knowledge self') /\
    query_facts "Moon" "Shape" self' = (Ok ["flat"], self').
Proof.
  intros self old.
  apply (mutable_record_is_replaced self "Moon" "Shape" "flat" "book" 2%Z old).
  - reflexivity.
  - apply learn_fact_keeps_unique. apply new_unique.
  - right. right. left. reflexivity.
  - reflexivity.
  - reflexivity.
  - reflexivity.
Defined.

(** The phase 10 engine refuses to replace an immutable row, for every
    relationship. *)
Lemma immutable_row_refused10 self s r f2 src t x :
  connection_open self = true -> unique_keys (knowledge self) ->
  In x (knowledge self) ->
  subject x = Py.lower s -> relationship x = Py.lower r ->
  is_immutable x = true ->
  learn_fact s r f2 src t self = (Ok "CONFLICT_WITH_CONSTANT", self) /\
  query_facts s r self = (Ok [fact x], self).
Proof.
  intros Hopen Hnd Hin Hs Hr Himm.
  pose proof (unique_filter _ _ Hnd Hin) as Hx. rewrite Hs, Hr in Hx.
  rewrite (open_engine10 self Hopen).
  rewrite learn_fact_open10, query_facts_open10. cbn zeta.
  simpl knowledge. rewrite Hx, Himm. split; reflexivity.
Qed.

(** Whenever the phase 10 [learn_fact] answers [CONFLICT_WITH_CONSTANT] the
    engine is open and unchanged. *)
Lemma conflict_keeps_engine10 self s r f src now self' :
  learn_fact s r f src now self = (Ok "CONFLICT_WITH_CONSTANT", self') ->
  connection_open self = true /\ self' = self.
Proof.
  destruct self as [[|] rows]; [| discriminate].
  change {| connection_open := true; knowledge := rows |}
    with (Spec.opened10 rows).
  rewrite learn_fact_open10. cbn zeta.
  destruct (filter _ rows) as [|x existing]; [discriminate |].
  destruct (is_immutable x); [| discriminate].
  intros H. injection H as <-. split; reflexivity.
Qed.

Lemma format_list_single x : _format_list [x] = x.
Proof. reflexivity. Qed.

Lemma format_list_many init lst :
  init <> [] ->
  _format_list (init ++ [lst]) = Py.join ", " init ++ ", and " ++ lst.
Proof.
  intros Hne. destruct init as [|a init]; [congruence |].
  unfold _format_list.
  rewrite removelast_last, last_last.
  simpl. destruct (init ++ [lst])%list eqn:E; [| reflexivity].
  now destruct init.
Qed.

(** C3. When the phase 10 response engine handles a thought of mood
    [declarative_fact] that carries a learning fact, and [learn_fact]
    answers [CONFLICT_WITH_CONSTANT], the reply is the conflict sentence
    with the values the query of the key returns, formatted by
    [_format_list]: one value stands alone, several are joined by commas
    with ", and" before the last ("engine, and wheel"; "engine, wheel,
    and door"), and no value gives the empty string. With the seeded
    table the thought
    [(ball, shape, square)] is answered with the stored value, round. *)
Theorem conflict_reply_states_known_value :
  (forall self th s r f now,
     Thought.mood th = "declarative_fact" ->
     Thought.learning_fact th = Some (s, r, f) ->
     fst (learn_fact s r f "user" now self) = Ok "CONFLICT_WITH_CONSTANT" ->
     let known :=
       map fact (filter (where_key (Py.lower s) (Py.lower r))
                        (knowledge self)) in
     query_facts s r self = (Ok known, self) /\
     generate_response th now self =
       (Ok ("That's interesting, but my understanding is that the "
            ++ r ++ " of " ++ s ++ " is " ++ _format_list known ++ "."),
        self)) /\
  (forall x, _format_list [x] = x) /\
  (forall init lst, init <> [] ->
     _format_list (init ++ [lst]) = Py.join ", " init ++ ", and " ++ lst) /\
  _format_list [] = "" /\
  _format_list ["engine"; "wheel"] = "engine, and wheel" /\
  _format_list ["engine"; "wheel"; "door"] = "engine, wheel, and door" /\
  _format_list ["a"; "b"; "c"; "d"] = "a, b, c, and d" /\
  generate_response Spec.ball_is_square 1%Z (new [] 0%Z) =
    (Ok ("That's interesting, but my understanding is that "
         ++ "the shape of ball is round."),
     new [] 0%Z).
Proof.
  split; [| split; [exact format_list_single |
                    split; [exact format_list_many | repeat split]]].
  intros self th s r f now Hmood Hfact Hconflict known.
  destruct (learn_fact s r f "user" now self) as [res self'] eqn:E.
  simpl in Hconflict. subst res.
  destruct (conflict_keeps_engine10 _ _ _ _ _ _ _ E) as [Hopen ->].
  assert (Hq : query_facts s r self = (Ok known, self)).
  { rewrite (open_engine10 self Hopen) at 1 2. apply query_facts_open10. }
  split; [exact Hq |].
  unfold generate_response. rewrite Hmood, Hfact.
  change ("declarative_fact" =? "declarative_fact") with true. cbv iota.
  unfold bind at 1. rewrite E.
  change ("CONFLICT_WITH_CONSTANT" =? "LEARNED_SUCCESSFULLY") with false.
  change ("CONFLICT_WITH_CONSTANT" =? "UPDATED_BELIEF") with false.
  change ("CONFLICT_WITH_CONSTANT" =? "CONFLICT_WITH_CONSTANT") with true.
  cbv iota. unfold bind. rewrite Hq. reflexivity.
Qed.

(** C3, at work: France has a capital already. *)
Lemma conflict_reply_states_known_value_witness :
  query_facts "France" "capital" (new [] 0%Z) = (Ok ["Paris"], new [] 0%Z) /\
  generate_response
    {| Thought.input_sentence := "The capital of France is Lyon.";
       Thought.action := None; Thought.agent := None;
       Thought.object := None; Thought.destination := None;
       Thought.tense := None; Thought.mood := "declarative_fact";
       Thought.attribute := None; Thought.urgency := "neutral";
       Thought.mood_connotation := "neutral"; Thought.tone := "neutral";
       Thought.entities := []; Thought.preposition := None;
       Thought.tense_aspect := None;
       Thought.learning_fact := Some ("France", "capital", "Lyon");
       Thought.query_fact := None |} 1%Z (new [] 0%Z) =
    (Ok ("That's interesting, but my understanding is that the "
         ++ "capital" ++ " of " ++ "France" ++ " is "
         ++ _format_list ["Paris"] ++ "."),
     new [] 0%Z).
Proof.
  apply (proj1 conflict_reply_states_known_value
           (new [] 0%Z) _ "France" "capital" "Lyon" 1%Z).
  - reflexivity.
  - reflexivity.
  - reflexivity.
Defined.

End Phase10_claims.

(** ** Context resolution *)

Section Context_claims.
Import Thought Context.

Lemma is_agent_it_spec t :
  is_agent_it t = true <-> Spec.agent_is_it t.
Proof.
  unfold is_agent_it, Spec.agent_is_it. destruct (agent t) as [a|].
  - rewrite String.eqb_eq. split.
    + intros H. now exists a.
    + intros [a' [Ha H]]. now injection Ha as ->.
  - split; [discriminate | intros [a [Ha _]]; discriminate].
Qed.

(** With a last turn, the rule reads that turn and nothing else. *)
Lemma resolve_context_last earlier last_thought t :
  _resolve_context (earlier ++ [last_thought]) t =
  if is_agent_it t then
    match Py.or_else (object last_thought) (agent last_thought) with
    | Some a => if Py.truthy (Py.PyStr a) then set_agent a t else t
    | None => t
    end
  else t.
Proof.
  unfold _resolve_context. destruct (is_agent_it t); [| reflexivity].
  destruct (earlier ++ [last_thought])%list eqn:E.
  - now destruct earlier.
  - rewrite <- E, last_last. reflexivity.
Qed.

Lemma present_truthy o s :
  Spec.present o s -> Py.truthy (Py.of_option o) = true.
Proof.
  intros [-> Hne]. simpl. apply String.eqb_neq in Hne. now rewrite Hne.
Qed.

Lemma absent_falsy o :
  Spec.absent o -> Py.truthy (Py.of_option o) = false.
Proof. intros [-> | ->]; reflexivity. Qed.

Lemma set_agent_only_sets_the_agent a t :
  Thought.agent (set_agent a t) = Some a /\
  SpecU.same_but_agent t (set_agent a t).
Proof. unfold SpecU.same_but_agent. repeat split. Qed.

Lemma same_but_agent_refl t : SpecU.same_but_agent t t.
Proof. unfold SpecU.same_but_agent. repeat split. Qed.

(** C7. When the agent of the current thought is "it" in any case and the
    history is not empty, the agent becomes the object of the last turn if
    that is a non-empty string, else the agent of the last turn if that is a
    non-empty string: the agent field of the result holds that string and
    every other field is as it was. The thought is returned as it is when
    the last turn has neither, when its agent is not the pronoun, and
    against an empty history. Two histories with the same last turn give
    the same result. *)
Theorem resolve_context_uses_last_turn :
  (forall earlier last_thought t,
     Spec.agent_is_it t ->
     (forall o, Spec.present (object last_thought) o ->
        _resolve_context (earlier ++ [last_thought]) t = set_agent o t /\
        agent (_resolve_context (earlier ++ [last_thought]) t) = Some o /\
        SpecU.same_but_agent
          t (_resolve_context (earlier ++ [last_thought]) t)) /\
     (forall a, Spec.absent (object last_thought) ->
        Spec.present (agent last_thought) a ->
        _resolve_context (earlier ++ [last_thought]) t = set_agent a t /\
        agent (_resolve_context (earlier ++ [last_thought]) t) = Some a /\
        SpecU.same_but_agent
          t (_resolve_context (earlier ++ [last_thought]) t)) /\
     (Spec.absent (object last_thought) ->
      Spec.absent (agent last_thought) ->
        _resolve_context (earlier ++ [last_thought]) t = t)) /\
  (forall history t,
     ~ Spec.agent_is_it t -> _resolve_context history t = t) /\
  (forall t, _resolve_context [] t = t) /\
  (forall earlier earlier' last_thought t,
     _resolve_context (earlier ++ [last_thought]) t =
     _resolve_context (earlier' ++ [last_thought]) t).
Proof.
  split; [| split; [| split]].
  - intros earlier last_thought t Hit. apply is_agent_it_spec in Hit.
    rewrite resolve_context_last, Hit. unfold Py.or_else.
    split; [| split].
    + intros o Ho. rewrite (present_truthy _ _ Ho).
      destruct Ho as [-> Hne]. simpl.
      apply String.eqb_neq in Hne. rewrite Hne. simpl.
      split; [reflexivity | apply set_agent_only_sets_the_agent].
    + intros a Hobj Ha. rewrite (absent_falsy _ Hobj).
      destruct Ha as [-> Hne]. simpl.
      apply String.eqb_neq in Hne. rewrite Hne. simpl.
      split; [reflexivity | apply set_agent_only_sets_the_agent].
    + intros Hobj Hag. rewrite (absent_falsy _ Hobj).
      destruct Hag as [-> | ->]; reflexivity.
  - intros history t Hnot. unfold _resolve_context.
    destruct (is_agent_it t) eqn:E; [| reflexivity].
    apply is_agent_it_spec in E. contradiction.
  - intros t. unfold _resolve_context. now destruct (is_agent_it t).
  - intros earlier earlier' last_thought t.
    now rewrite !resolve_context_last.
Qed.

(** C7, at work: after "I dropped the ball.", the agent of "It rolled
    away." is "the ball", whatever was said before, and the rest of the
    thought is as the parser left it; after "I slept." the agent is "I";
    and "She rolled away." is left as it is. *)
Lemma resolve_context_uses_last_turn_witness :
  let it_rolled :=
    Spec.action_thought "It rolled away." "roll" (Some "It") None in
  let i_dropped :=
    Spec.action_thought "I dropped the ball." "drop"
      (Some "I") (Some "the ball") in
  let cat_chased :=
    Spec.action_thought "The cat chased the mouse." "chase"
      (Some "The cat") (Some "the mouse") in
  let i_slept := Spec.action_thought "I slept." "sleep" (Some "I") None in
  let she_rolled :=
    Spec.action_thought "She rolled away." "roll" (Some "She") None in
  (_resolve_context [cat_chased; i_dropped] it_rolled
     = set_agent "the ball" it_rolled /\
   agent (_resolve_context [cat_chased; i_dropped] it_rolled)
     = Some "the ball" /\
   SpecU.same_but_agent
     it_rolled (_resolve_context [cat_chased; i_dropped] it_rolled)) /\
  (_resolve_context [i_dropped; i_slept] it_rolled = set_agent "I" it_rolled /\
   agent (_resolve_context [i_dropped; i_slept] it_rolled) = Some "I" /\
   SpecU.same_but_agent
     it_rolled (_resolve_context [i_dropped; i_slept] it_rolled)) /\
  _resolve_context [i_dropped] she_rolled = she_rolled /\
  agent (_resolve_context [i_dropped] she_rolled) = Some "She".
Proof.
  intros it_rolled i_dropped cat_chased i_slept she_rolled.
  assert (Hit : Spec.agent_is_it it_rolled)
    by (exists "It"; split; reflexivity).
  split; [| split; [| split]].
  - apply (proj1 (proj1 resolve_context_uses_last_turn
                    [cat_chased] i_dropped it_rolled Hit)).
    split; [reflexivity | discriminate].
  - apply (proj1 (proj2 (proj1 resolve_context_uses_last_turn
                           [i_dropped] i_slept it_rolled Hit))).
    + left. reflexivity.
    + split; [reflexivity | discriminate].
  - apply (proj1 (proj2 resolve_context_uses_last_turn)).
    intros [a [Ha Hlow]]. injection Ha as <-. discriminate.
  - reflexivity.
Defined.

End Context_claims.

(** ** Tone *)

Section Tone_claims.
Import Thought Tone.

Lemma has_positive_word_spec t :
  has_positive_word t = true <->
  exists w, In w sarcastic_positives /\
            Spec.occurs_in w (Py.lower (input_sentence t)).
Proof.
  unfold has_positive_word. rewrite existsb_exists.
  split; intros [w [Hw H]]; exists w; split; try assumption;
    now apply contains_spec.
Qed.

Lemma has_negative_context_spec t :
  has_negative_context t = true <->
  exists a, action t = Some a /\ In a negative_context_verbs.
Proof.
  unfold has_negative_context. destruct (action t) as [a|].
  - rewrite mem_In. split.
    + intros H. now exists a.
    + intros [a' [Ha H]]. now injection Ha as ->.
  - split; [discriminate | intros [a [Ha _]]; discriminate].
Qed.

Lemma analyze_thought_tone t :
  tone (analyze_thought t) =
  if has_positive_word t && has_negative_context t
  then "sarcastic" else "neutral".
Proof.
  unfold analyze_thought.
  change (has_positive_word (set_tone "neutral" t))
    with (has_positive_word t).
  change (has_negative_context (set_tone "neutral" t))
    with (has_negative_context t).
  destruct (has_positive_word t && has_negative_context t); reflexivity.
Qed.

(** C8. After tone enrichment the tone is "sarcastic" exactly when the
    sentence, in lower case, contains one of great, perfect, fantastic,
    wonderful, lovely and the action is one of spill, break, lose, forget,
    drop; in every other case it is "neutral". "That's just great, I
    dropped it." with action drop is sarcastic, and so is the same
    sentence in capitals, since it is the lowercased sentence that is
    searched; "That's just great, I won the race." with action win is
    neutral, and so are a sentence without a positive word and a verb
    written "Drop", which is not in the set. *)
Theorem tone_is_sarcastic_iff :
  (forall t,
     let positive :=
       exists w,
         In w ["great"; "perfect"; "fantastic"; "wonderful"; "lovely"] /\
         Spec.occurs_in w (Py.lower (input_sentence t)) in
     let negative :=
       exists a, action t = Some a /\
                 In a ["spill"; "break"; "lose"; "forget"; "drop"] in
     (tone (analyze_thought t) = "sarcastic" <-> positive /\ negative) /\
     (~ (positive /\ negative) -> tone (analyze_thought t) = "neutral")) /\
  tone (analyze_thought
          (Spec.action_thought "That's just great, I dropped it." "drop"
             (Some "I") (Some "it"))) = "sarcastic" /\
  tone (analyze_thought
          (Spec.action_thought "That's just great, I won the race." "win"
             (Some "I") (Some "the race"))) = "neutral" /\
  tone (analyze_thought
          (Spec.action_thought "THAT'S JUST GREAT, I DROPPED IT." "drop"
             (Some "I") (Some "IT"))) = "sarcastic" /\
  tone (analyze_thought
          (Spec.action_thought "How Lovely, I forgot my keys." "forget"
             (Some "I") (Some "my keys"))) = "sarcastic" /\
  tone (analyze_thought
          (Spec.action_thought "I dropped it." "drop"
             (Some "I") (Some "it"))) = "neutral" /\
  tone (analyze_thought
          (Spec.action_thought "That's just great, I dropped it." "Drop"
             (Some "I") (Some "it"))) = "neutral" /\
  Py.lower "THAT'S JUST GREAT, I DROPPED IT."
    = "that's just great, i dropped it.".
Proof.
  split; [| repeat split].
  intros t positive negative. rewrite analyze_thought_tone.
  assert (Hiff : has_positive_word t && has_negative_context t = true
                 <-> positive /\ negative).
  { rewrite andb_true_iff, has_positive_word_spec,
      has_negative_context_spec. reflexivity. }
  destruct (has_positive_word t && has_negative_context t).
  - split; [| intros Hn; elim Hn; now apply Hiff].
    split; [intros _; now apply Hiff | reflexivity].
  - split; [| reflexivity].
    split; [discriminate |].
    intros H. apply Hiff in H. discriminate.
Qed.

End Tone_claims.

(** ** The final response engine and dialogue manager *)

Section Final_claims.
Import Thought.

Lemma learn_fact_returns self s r f src now :
  Phase9.connection_open self = true ->
  exists o self',
    Phase9.learn_fact s r f src now self = (Ok o, self') /\
    In o ["CONFLICT_WITH_CONSTANT"; "ALREADY_KNOWN"; "LEARNED_SUCCESSFULLY"].
Proof.
  intros Hopen.
  destruct (learn_fact_cases self s r f src now Hopen) as [E | [E | E]];
    rewrite E; eexists; eexists; (split; [reflexivity |]); simpl; auto.
Qed.

(** C9. Whenever the phase 9 [learn_fact] returns, its value is one of
    "CONFLICT_WITH_CONSTANT", "ALREADY_KNOWN" and "LEARNED_SUCCESSFULLY", a
    non-empty string, which Python takes for true; on an open connection it
    does return. So the declarative-fact rule of the final response engine,
    run on that engine, answers "Okay, I've learned that ..." for every
    outcome and never the "I had trouble remembering that" sentence; for
    [(ball, shape, square)] on the seeded table [learn_fact] answers
    [CONFLICT_WITH_CONSTANT], the table is unchanged, and the reply still
    says the fact was learned. *)
Theorem final_reply_claims_success_for_every_outcome :
  (forall self s r f src now o self',
     Phase9.learn_fact s r f src now self = (Ok o, self') ->
     In o ["CONFLICT_WITH_CONSTANT"; "ALREADY_KNOWN"; "LEARNED_SUCCESSFULLY"]
     /\ o <> "" /\ Py.truthy (Py.PyStr o) = true) /\
  (forall self s r f src now,
     Phase9.connection_open self = true ->
     exists o self', Phase9.learn_fact s r f src now self = (Ok o, self')) /\
  (forall self th s r f now,
     mood th = "declarative_fact" ->
     learning_fact th = Some (s, r, f) ->
     Phase9.connection_open self = true ->
     Final.generate_response Final.phase9_engine th now self =
       (Ok ("Okay, I've learned that the " ++ r ++ " of " ++ s ++ " is "
            ++ f ++ "."),
        snd (Phase9.learn_fact s r f "user" now self))) /\
  (forall self th s r f now reply self',
     mood th = "declarative_fact" ->
     learning_fact th = Some (s, r, f) ->
     Final.generate_response Final.phase9_engine th now self
       = (Ok reply, self') ->
     reply <> "I had trouble remembering that. Could you try phrasing it differently?") /\
  Phase9.learn_fact "ball" "shape" "square" "user" 1%Z (Phase9.new [] 0%Z)
    = (Ok "CONFLICT_WITH_CONSTANT", Phase9.new [] 0%Z) /\
  Final.generate_response Final.phase9_engine Spec.ball_is_square 1%Z
                          (Phase9.new [] 0%Z)
    = (Ok "Okay, I've learned that the shape of ball is square.",
       Phase9.new [] 0%Z).
Proof.
  assert (Hrule : forall self th s r f now,
    mood th = "declarative_fact" ->
    learning_fact th = Some (s, r, f) ->
    Final.generate_response Final.phase9_engine th now self =
    match Phase9.learn_fact s r f "user" now self with
    | (Ok _, self') =>
        (Ok ("Okay, I've learned that the " ++ r ++ " of " ++ s ++ " is "
             ++ f ++ "."), self')
    | (Raised e, self') => (Raised e, self')
    end).
  { intros self th s r f now Hmood Hfact.
    unfold Final.generate_response. rewrite Hmood, Hfact.
    change ("declarative_fact" =? "declarative_fact") with true. cbv iota.
    unfold Final.phase9_engine, Final.learn_fact, bind, ret.
    destruct (Phase9.learn_fact s r f "user" now self) as [[o | e] self']
      eqn:E; [| reflexivity].
    pose proof (learn_fact_ok_open _ _ _ _ _ _ _ _ E) as Hopen.
    destruct (learn_fact_cases self s r f "user" now Hopen) as [C | [C | C]];
      rewrite C in E; injection E as <- <-; reflexivity. }
  split; [| split; [| split; [| split; [| split; reflexivity]]]].
  - intros self s r f src now o self' H.
    pose proof (learn_fact_ok_open _ _ _ _ _ _ _ _ H) as Hopen.
    destruct (learn_fact_cases self s r f src now Hopen) as [E | [E | E]];
      rewrite E in H; injection H as <- _;
      (split; [simpl; auto | split; [discriminate | reflexivity]]).
  - intros self s r f src now Hopen.
    destruct (learn_fact_returns self s r f src now Hopen)
      as [o [self' [H _]]].
    now exists o, self'.
  - intros self th s r f now Hmood Hfact Hopen.
    rewrite (Hrule self th s r f now Hmood Hfact).
    destruct (learn_fact_returns self s r f "user" now Hopen)
      as [o [self' [H _]]].
    now rewrite H.
  - intros self th s r f now reply self' Hmood Hfact H.
    rewrite (Hrule self th s r f now Hmood Hfact) in H.
    destruct (Phase9.learn_fact s r f "user" now self) as [[o | e] self''];
      [| discriminate].
    injection H as <- _. discriminate.
Qed.

(** C9, at work: a part the car already has is "learned" once more. *)
Lemma final_reply_claims_success_for_every_outcome_witness :
  (In "ALREADY_KNOWN"
      ["CONFLICT_WITH_CONSTANT"; "ALREADY_KNOWN"; "LEARNED_SUCCESSFULLY"]
   /\ "ALREADY_KNOWN" <> "" /\ Py.truthy (Py.PyStr "ALREADY_KNOWN") = true)
  /\
  Final.generate_response Final.phase9_engine
    {| input_sentence := "The part of a car is a wheel.";
       action := None; agent := None; object := None; destination := None;
       tense := None; mood := "declarative_fact"; attribute := None;
       urgency := "neutral"; mood_connotation := "neutral";
       tone := "neutral"; entities := []; preposition := None;
       tense_aspect := None;
       learning_fact := Some ("car", "has_part", "wheel");
       query_fact := None |} 1%Z (Phase9.new [] 0%Z)
  = (Ok ("Okay, I've learned that the " ++ "has_part" ++ " of " ++ "car"
         ++ " is " ++ "wheel" ++ "."),
     snd (Phase9.learn_fact "car" "has_part" "wheel" "user" 1%Z
                            (Phase9.new [] 0%Z))).
Proof.
  split.
  - apply (proj1 final_reply_claims_success_for_every_outcome
             (Phase9.new [] 0%Z) "car" "has_part" "wheel" "user" 1%Z
             "ALREADY_KNOWN" (Phase9.new [] 0%Z)).
    reflexivity.
  - apply (proj1 (proj2 (proj2
             final_reply_claims_success_for_every_outcome))).
    + reflexivity.
    + reflexivity.
    + reflexivity.
Defined.

(** C6, as stated, fails: the thought is appended before the response
    engine runs, and nothing catches what the response engine raises. On a
    manager whose engine has been closed, the turn raises (there is no
    reply) and the history has grown. *)
Lemma failed_turn_stays_in_history :
  let closed := snd (Phase9.close (Phase9.new [] 0%Z)) in
  let dm := {| Final.the_engine := closed;
               Final.conversation_history := [] |} in
  let out := Final.handle_message Final.phase9_engine
               (fun _ => Spec.ball_is_square) "The ball is square." 1%Z dm in
  fst out = Raised ProgrammingError /\
  (forall reply, fst out <> Ok reply) /\
  Final.conversation_history (snd out) = [Spec.ball_is_square] /\
  Final.conversation_history (snd out) <> Final.conversation_history dm.
Proof.
  repeat split; discriminate.
Qed.

(** C6, amended. A turn resolves the context, then enriches nuance, then
    tone, in that order; it appends the enriched thought to the history and
    then runs the response engine on it. What the response engine returns
    or raises is what the turn returns or raises, and the thought is in the
    history either way. *)
Theorem turn_appends_then_decides :
  forall (KE : Type) (knowledge_engine : Final.KnowledgeEngine KE)
         (parse_sentence : string -> CoreThought)
         (message : string) (now : datetime)
         (dm : Final.DialogueManager KE),
    let final_thought :=
      Tone.analyze_thought
        (Nuance.analyze_thought
           (Context._resolve_context (Final.conversation_history dm)
                                     (parse_sentence message))) in
    let decided :=
      Final.generate_response knowledge_engine final_thought now
                              (Final.the_engine dm) in
    Final.handle_message knowledge_engine parse_sentence message now dm =
    (fst decided,
     {| Final.the_engine := snd decided;
        Final.conversation_history :=
          Final.conversation_history dm ++ [final_thought] |}).
Proof.
  intros KE knowledge_engine parse_sentence message now dm
         final_thought decided.
  unfold Final.handle_message, bind, Final.read_history,
    Final.append_history, Final.on_engine, ret. simpl.
  fold final_thought. fold decided.
  destruct decided as [[reply | e] ke]; reflexivity.
Qed.

(** The chat manager of [sclm_interactive_chat.py] has the same order: it
    appends the enriched thought and then asks its response engine, which
    cannot raise. *)
Lemma chat_turn_appends_then_decides
      (parse_sentence : string -> CoreThought) (message : string)
      (dm : Chat.DialogueManager) :
  let final_thought :=
    Tone.analyze_thought
      (Nuance.analyze_thought
         (Context._resolve_context (Chat.conversation_history dm)
                                   (parse_sentence message))) in
  Chat.get_response parse_sentence message dm =
  (Ok (Chat.generate_response final_thought),
   {| Chat.conversation_history :=
        Chat.conversation_history dm ++ [final_thought] |}).
Proof. reflexivity. Qed.

End Final_claims.

(** ** The phase 9 engine has no update path *)

(** A second fact for a mutable singular key is added to the first; the
    phase 9 [learn_fact] has no outcome that replaces a row. *)
Lemma phase9_adds_second_singular_fact :
  let self := snd (Phase9.learn_fact "moon" "shape" "round" "user" 1%Z
                                     (Phase9.new [] 0%Z)) in
  let out := Phase9.learn_fact "moon" "shape" "flat" "user" 2%Z self in
  fst out = Ok "LEARNED_SUCCESSFULLY" /\
  fst (Phase9.query_facts "moon" "shape" (snd out)) = Ok ["round"; "flat"].
Proof. split; reflexivity. Qed.

(** The phase 10 table holds one fact per key: a second fact for a key
    replaces the first, whatever the relationship. *)
Lemma phase10_keeps_one_fact_per_key :
  let self := snd (Phase10.learn_fact "car" "has_part" "engine" "user" 1%Z
                                      (Phase10.new [] 0%Z)) in
  let out := Phase10.learn_fact "car" "has_part" "wheel" "user" 2%Z self in
  fst out = Ok "UPDATED_BELIEF" /\
  fst (Phase10.query_facts "car" "has_part" (snd out)) = Ok ["wheel"].
Proof. split; reflexivity. Qed.

(** * Further properties of the code *)

(** ** Case folding *)

Lemma lower_ascii_idempotent (c : ascii) :
  Py.lower_ascii (Py.lower_ascii c) = Py.lower_ascii c.
Proof. destruct c as [[] [] [] [] [] [] [] []]; reflexivity. Qed.

Lemma lower_idempotent (s : string) : Py.lower (Py.lower s) = Py.lower s.
Proof.
  induction s as [|c s IH]; simpl; [reflexivity |].
  now rewrite lower_ascii_idempotent, IH.
Qed.

(** ** The phase 9 engine: what every reachable table looks like *)

Section Phase9_tables.
Import Phase9.

(** The table after [learn_fact] is the table before, or that table and
    the row the call writes; the connection is as it was. *)
Lemma learn_fact_appends_rows self s r f src now :
  connection_open (snd (learn_fact s r f src now self))
    = connection_open self /\
  (knowledge (snd (learn_fact s r f src now self)) = knowledge self \/
   knowledge (snd (learn_fact s r f src now self)) =
     (knowledge self ++ [Spec.learned_row s r f src now])%list).
Proof.
  destruct self as [[|] rows].
  - destruct (learn_fact_cases
                {| connection_open := true; knowledge := rows |}
                s r f src now eq_refl) as [E | [E | E]];
      rewrite E; simpl; auto.
  - rewrite learn_fact_closed. simpl. auto.
Qed.

Lemma learned_row_is_user_row s r f src now :
  Inv.user_row (Spec.learned_row s r f src now).
Proof.
  unfold Inv.user_row, Inv.folded; simpl.
  now rewrite !lower_idempotent.
Qed.

Lemma reachable_seeded_then_learned self :
  reachable self -> Inv.seeded_then_learned (knowledge self).
Proof.
  induction 1 as [now | self s r f src now _ IH | self _ IH | self now _ IH].
  - exists now, []. rewrite app_nil_r. split; [reflexivity | constructor].
  - destruct IH as [start [learned [Hrows Hall]]].
    destruct (learn_fact_appends_rows self s r f src now)
      as [_ [E | E]]; rewrite E.
    + now exists start, learned.
    + exists start, (learned ++ [Spec.learned_row s r f src now])%list.
      split; [now rewrite Hrows, app_assoc |].
      apply Forall_app. split; [assumption |].
      constructor; [apply learned_row_is_user_row | constructor].
  - exact IH.
  - destruct IH as [start [learned [Hrows Hall]]].
    rewrite new_knowledge, Hrows, new_empty. simpl.
    exists start, learned. now rewrite new_empty.
Qed.

(** A table that starts with the constants is not written to by the
    initialisation. *)
Lemma reopen_same_table rows now :
  Inv.seeded_then_learned rows -> knowledge (new rows now) = rows.
Proof.
  intros [start [learned [Hrows _]]].
  rewrite new_knowledge, Hrows, new_empty. reflexivity.
Qed.

(** X2. Facts survive a restart: constructing an engine over the table of
    a reachable engine leaves the table as it is (the constants are written
    to an empty table only) and opens the connection. *)
Theorem reopening_keeps_the_table :
  forall self now,
    reachable self ->
    knowledge (new (knowledge self) now) = knowledge self /\
    connection_open (new (knowledge self) now) = true.
Proof.
  intros self now Hreach. split; [| apply new_open].
  apply reopen_same_table. now apply reachable_seeded_then_learned.
Qed.

(** X2, at work: a door learned in one session is there in the next. *)
Lemma reopening_keeps_the_table_witness :
  let first_session :=
    snd (close (snd (learn_fact "car" "has_part" "door" "user" 1%Z
                                (new [] 0%Z)))) in
  knowledge (new (knowledge first_session) 2%Z) = knowledge first_session /\
  connection_open (new (knowledge first_session) 2%Z) = true.
Proof.
  intros first_session.
  apply (reopening_keeps_the_table first_session 2%Z).
  apply reach_close. apply reach_learn. apply reach_new.
Defined.

(** Closing twice is closing once, and closing keeps the table; on a
    closed engine [learn_fact] and [query_facts] raise and leave the
    engine as it is. *)
Lemma closed_engine_refuses :
  forall self s r f src now,
    let closed := snd (close self) in
    close closed = (Ok tt, closed) /\
    knowledge closed = knowledge self /\
    learn_fact s r f src now closed = (Raised ProgrammingError, closed) /\
    query_facts s r closed = (Raised ProgrammingError, closed).
Proof.
  intros self s r f src now closed. repeat split.
Qed.

End Phase9_tables.

Section Phase9_uniqueness.
Import Phase9.






(** X6. In a reachable engine with an open connection, [learn_fact]
    answers [CONFLICT_WITH_CONSTANT] exactly for the keys of the two
    singular constants, the shape of the ball and the capital of France,
    written in any case and whatever the fact, the stored one included; no
    other key ever conflicts. *)
Theorem conflict_exactly_on_constant_keys :
  forall self s r f src now,
    reachable self -> connection_open self = true ->
    (fst (learn_fact s r f src now self) = Ok "CONFLICT_WITH_CONSTANT" <->
     (Py.lower s = "ball" /\ Py.lower r = "shape") \/
     (Py.lower s = "france" /\ Py.lower r = "capital")).
Proof.
  intros self s r f src now Hreach Hopen.
  destruct (reachable_seeded_then_learned self Hreach)
    as [start [learned [Hrows Hall]]].
  rewrite (open_engine self Hopen), learn_fact_open. cbn zeta.
  split.
  - destruct (filter (where_key (Py.lower s) (Py.lower r)) (knowledge self))
      as [|x existing] eqn:E; [discriminate |].
    destruct (Py.mem (Py.lower r) singular_relationships && is_immutable x)
      eqn:Hc.
    + intros _. apply andb_true_iff in Hc. destruct Hc as [Hsing Himm].
      assert (Hx : In x (filter (where_key (Py.lower s) (Py.lower r))
                                (knowledge self)))
        by (rewrite E; now left).
      apply filter_In in Hx. destruct Hx as [Hin Hk].
      unfold where_key in Hk. apply andb_true_iff in Hk.
      destruct Hk as [Hs Hr]. apply String.eqb_eq in Hs, Hr.
      rewrite <- Hr in Hsing. rewrite <- Hs, <- Hr.
      rewrite Hrows in Hin. apply in_app_or in Hin.
      destruct Hin as [Hin | Hin].
      * rewrite new_empty in Hin. simpl in Hin.
        repeat (destruct Hin as [<- | Hin];
                [simpl in Hsing |- *; try discriminate; auto |]).
        contradiction.
      * rewrite Forall_forall in Hall. destruct (Hall x Hin) as [Hmut _].
        congruence.
    + destruct (existsb _ (x :: existing)); discriminate.
  - intros Hkey. rewrite Hrows, filter_app, new_empty.
    destruct Hkey as [[-> ->] | [-> ->]]; reflexivity.
Qed.

(** X6, at work: the ball is round, and saying so is a conflict; the
    colour of the ball is free. *)
Lemma conflict_exactly_on_constant_keys_witness :
  (fst (learn_fact "Ball" "Shape" "round" "user" 1%Z (new [] 0%Z))
     = Ok "CONFLICT_WITH_CONSTANT" <->
   (Py.lower "Ball" = "ball" /\ Py.lower "Shape" = "shape") \/
   (Py.lower "Ball" = "france" /\ Py.lower "Shape" = "capital")).
Proof.
  apply (conflict_exactly_on_constant_keys
           (new [] 0%Z) "Ball" "Shape" "round" "user" 1%Z).
  - apply reach_new.
  - reflexivity.
Defined.

End Phase9_uniqueness.

(** ** The phase 10 engine: restarts, frames and answers *)

Section Phase10_tables.
Import Phase10.

(** X7. A phase 10 engine forgets on restart: whatever the database
    held, the table of a new engine answers "round" for the shape of the
    ball, "Paris" for the capital of France, and nothing for any other
    key. *)
Theorem restart_forgets_learned_facts :
  forall db now S R,
    query_facts S R (new db now) =
    (Ok (if (Py.lower S =? "ball") && (Py.lower R =? "shape")
         then ["round"]
         else if (Py.lower S =? "france") && (Py.lower R =? "capital")
         then ["Paris"]
         else []),
     new db now).
Proof.
  intros db now S R.
  change (new db now) with (Spec.opened10 (knowledge (new db now))).
  rewrite query_facts_open10, new_knowledge10.
  unfold where_key. cbn [filter subject relationship map fact].
  rewrite (String.eqb_sym "ball"), (String.eqb_sym "shape"),
    (String.eqb_sym "france"), (String.eqb_sym "capital").
  destruct ((Py.lower S =? "ball") && (Py.lower R =? "shape")) eqn:E1;
    destruct ((Py.lower S =? "france") && (Py.lower R =? "capital")) eqn:E2;
    try reflexivity.
  apply andb_true_iff in E1, E2. destruct E1 as [E1 _], E2 as [E2 _].
  apply String.eqb_eq in E1, E2. congruence.
Qed.

(** Under unique keys a key has no row or one. *)
Lemma at_most_one_row rows a b :
  unique_keys rows ->
  filter (where_key a b) rows = [] \/
  exists x, filter (where_key a b) rows = [x].
Proof.
  intros Hnd. destruct (filter (where_key a b) rows) as [|x rest] eqn:E;
    [now left |].
  right. exists x.
  assert (Hx : In x (filter (where_key a b) rows)) by (rewrite E; now left).
  apply filter_In in Hx. destruct Hx as [Hin Hk].
  apply key_where_key in Hk. unfold key in Hk. injection Hk as Hs Hr.
  pose proof (unique_filter rows x Hnd Hin) as Hone.
  rewrite Hs, Hr, E in Hone. exact Hone.
Qed.

Lemma asks_takes_the_question_rule th s r now :
  Inv.asks th s r ->
  generate_response th now =
  (answers <- query_facts s r ;;
   match answers with
   | _ :: _ =>
       let verb := if (length answers =? 1)%nat then "is" else "are" in
       ret ("Based on what I know, the " ++ r ++ " of " ++ s
            ++ " " ++ verb ++ ": " ++ _format_list answers ++ ".")
   | [] =>
       ret ("I don't have any information about the " ++ r ++ " of "
            ++ s ++ ".")
   end).
Proof.
  intros [Hmood Hq]. unfold generate_response. rewrite Hmood, Hq.
  reflexivity.
Qed.

(** X9. Because the table holds one row per key, a factual question is
    answered with no fact or with one: on an open engine with unique keys
    the reply is the "I don't have any information" sentence, or the
    "Based on what I know" sentence with the verb "is" and the one stored
    fact; the plural "are" is never used. The engine is left as it was. *)
Theorem factual_answer_has_one_fact :
  forall self th s r now,
    Inv.asks th s r ->
    connection_open self = true -> unique_keys (knowledge self) ->
    (query_facts s r self = (Ok [], self) /\
     generate_response th now self =
       (Ok ("I don't have any information about the " ++ r ++ " of "
            ++ s ++ "."), self)) \/
    (exists f,
       query_facts s r self = (Ok [f], self) /\
       generate_response th now self =
         (Ok ("Based on what I know, the " ++ r ++ " of " ++ s
              ++ " is: " ++ f ++ "."), self)).
Proof.
  intros self th s r now Hask Hopen Hnd.
  rewrite (asks_takes_the_question_rule th s r now Hask).
  rewrite (open_engine10 self Hopen). unfold bind.
  rewrite query_facts_open10. simpl knowledge.
  destruct (at_most_one_row (knowledge self) (Py.lower s) (Py.lower r) Hnd)
    as [E | [x E]]; rewrite E.
  - left. split; reflexivity.
  - right. exists (fact x). split; reflexivity.
Qed.

(** X9, at work: what is the capital of France? *)
Lemma factual_answer_has_one_fact_witness :
  let th :=
    {| Thought.input_sentence := "What is the capital of France?";
       Thought.action := None; Thought.agent := None;
       Thought.object := None; Thought.destination := None;
       Thought.tense := None; Thought.mood := "interrogative_fact";
       Thought.attribute := None; Thought.urgency := "neutral";
       Thought.mood_connotation := "neutral"; Thought.tone := "neutral";
       Thought.entities := []; Thought.preposition := None;
       Thought.tense_aspect := None; Thought.learning_fact := None;
       Thought.query_fact := Some ("France", "capital") |} in
  (query_facts "France" "capital" (new [] 0%Z) = (Ok [], new [] 0%Z) /\
   generate_response th 1%Z (new [] 0%Z) =
     (Ok ("I don't have any information about the " ++ "capital" ++ " of "
          ++ "France" ++ "."), new [] 0%Z)) \/
  (exists f,
     query_facts "France" "capital" (new [] 0%Z) = (Ok [f], new [] 0%Z) /\
     generate_response th 1%Z (new [] 0%Z) =
       (Ok ("Based on what I know, the " ++ "capital" ++ " of " ++ "France"
            ++ " is: " ++ f ++ "."), new [] 0%Z)).
Proof.
  intros th.
  apply (factual_answer_has_one_fact (new [] 0%Z) th "France" "capital" 1%Z).
  - split; reflexivity.
  - reflexivity.
  - apply new_unique.
Defined.

End Phase10_tables.

Section Phase10_responses.
Import Phase10.

Lemma states_takes_the_learning_rule th s r f now self :
  Inv.states th s r f ->
  connection_open self = true ->
  generate_response th now self =
  match filter (where_key (Py.lower s) (Py.lower r)) (knowledge self) with
  | [] =>
      (Ok ("Okay, I've learned that the " ++ r ++ " of " ++ s ++ " is "
           ++ f ++ "."),
       snd (learn_fact s r f "user" now self))
  | x :: _ =>
      if is_immutable x then
        (Ok ("That's interesting, but my understanding is that the "
             ++ r ++ " of " ++ s ++ " is "
             ++ _format_list
                  (map fact (filter (where_key (Py.lower s) (Py.lower r))
                                    (knowledge self)))
             ++ "."),
         self)
      else
        (Ok ("Okay, I've updated my belief. I now understand that the "
             ++ r ++ " of " ++ s ++ " is " ++ f ++ "."),
         snd (learn_fact s r f "user" now self))
  end.
Proof.
  intros [Hmood Hfact] Hopen. unfold generate_response.
  rewrite Hmood, Hfact.
  change ("declarative_fact" =? "declarative_fact") with true. cbv iota.
  rewrite (open_engine10 self Hopen). unfold bind at 1.
  rewrite learn_fact_open10. cbn zeta. simpl knowledge.
  destruct (filter (where_key (Py.lower s) (Py.lower r)) (knowledge self))
    as [|x existing] eqn:E; [reflexivity |].
  destruct (is_immutable x); [| reflexivity].
  change ("CONFLICT_WITH_CONSTANT" =? "LEARNED_SUCCESSFULLY") with false.
  change ("CONFLICT_WITH_CONSTANT" =? "UPDATED_BELIEF") with false.
  change ("CONFLICT_WITH_CONSTANT" =? "CONFLICT_WITH_CONSTANT") with true.
  cbv iota. unfold bind. rewrite query_facts_open10. simpl knowledge.
  now rewrite E.
Qed.

(** What the rules below the learning rule do on an open engine: they
    answer, and leave the engine as it is. *)
Lemma below_the_learning_rule self th :
  connection_open self = true ->
  exists reply,
    match (if Thought.mood th =? "interrogative_fact"
           then Thought.query_fact th else None) with
    | Some (subject, rel) =>
        answers <- query_facts subject rel ;;
        match answers with
        | _ :: _ =>
            let verb :=
              if (length answers =? 1)%nat then "is" else "are" in
            ret ("Based on what I know, the " ++ rel ++ " of " ++ subject
                 ++ " " ++ verb ++ ": " ++ _format_list answers ++ ".")
        | [] =>
            ret ("I don't have any information about the " ++ rel ++ " of "
                 ++ subject ++ ".")
        end
    | None =>
        if Py.truthy (Py.of_option (Thought.attribute th)) then
          ret (Py.str (Py.of_option (Thought.agent th))
               ++ " certainly seems to be "
               ++ Py.str (Py.of_option (Thought.attribute th))
               ++ ". That's an interesting observation.")
        else ret "I understand. Thank you for telling me."
    end self = (Ok reply, self).
Proof.
  intros Hopen.
  destruct (if Thought.mood th =? "interrogative_fact"
            then Thought.query_fact th else None) as [[subject rel]|].
  - rewrite (open_engine10 self Hopen). unfold bind.
    rewrite query_facts_open10.
    destruct (map fact _); eexists; reflexivity.
  - destruct (Py.truthy _); eexists; reflexivity.
Qed.

(** The response engine on an open connection, rule by rule. *)
Lemma generate_response_open_cases :
  forall self th now,
    connection_open self = true ->
    exists reply self',
      generate_response th now self = (Ok reply, self') /\
      connection_open self' = true /\
      (unique_keys (knowledge self) -> unique_keys (knowledge self')) /\
      ((Thought.mood th <> "declarative_fact" \/
        Thought.learning_fact th = None) -> self' = self).
Proof.
  intros self th now Hopen.
  destruct (Thought.learning_fact th) as [[[s r] f]|] eqn:Hfact.
  - destruct (String.eqb_spec (Thought.mood th) "declarative_fact")
      as [Hmood | Hmood].
    + rewrite (states_takes_the_learning_rule th s r f now self
                 (conj Hmood Hfact) Hopen).
      assert (Hafter :
        connection_open (snd (learn_fact s r f "user" now self)) = true /\
        (unique_keys (knowledge self) ->
         unique_keys (knowledge (snd (learn_fact s r f "user" now self))))).
      { split; [| apply learn_fact_keeps_unique].
        rewrite (open_engine10 self Hopen), learn_fact_open10. cbn zeta.
        destruct (filter _ _) as [|x ?]; [reflexivity |].
        destruct (is_immutable x); reflexivity. }
      destruct Hafter as [Ho Hu].
      destruct (filter _ (knowledge self)) as [|x existing].
      * eexists; eexists. split; [reflexivity |].
        split; [exact Ho |]. split; [exact Hu |].
        intros [H | H]; [contradiction | discriminate].
      * destruct (is_immutable x); eexists; eexists;
          (split; [reflexivity |]); (split; [assumption |]);
          (split; [auto |]);
          intros [H | H]; try contradiction; discriminate.
    + destruct (below_the_learning_rule self th Hopen) as [reply Hreply].
      exists reply, self. unfold generate_response. rewrite Hfact.
      apply String.eqb_neq in Hmood. rewrite Hmood.
      split; [exact Hreply | auto].
  - destruct (below_the_learning_rule self th Hopen) as [reply Hreply].
    exists reply, self. unfold generate_response. rewrite Hfact.
    destruct (Thought.mood th =? "declarative_fact");
      (split; [exact Hreply | auto]).
Qed.

(** X10. On an open phase 10 engine the response engine never raises:
    every thought gets a reply, the connection stays open and the keys
    stay unique; a thought that states no fact leaves the table as it
    is. *)
Theorem response_engine_answers_when_open :
  forall self th now,
    connection_open self = true ->
    exists reply self',
      generate_response th now self = (Ok reply, self') /\
      connection_open self' = true /\
      (unique_keys (knowledge self) -> unique_keys (knowledge self')) /\
      ((Thought.mood th <> "declarative_fact" \/
        Thought.learning_fact th = None) -> self' = self).
Proof.
  intros self th now Hopen.
  destruct (generate_response_open_cases self th now Hopen)
    as [reply [self' [Hreply [Hopen' [Hnd Hsame]]]]].
  exists reply, self'. repeat split; assumption.
Qed.

(** X10, at work: a statement about the moon is answered and stored. *)
Lemma response_engine_answers_when_open_witness :
  let th :=
    {| Thought.input_sentence := "The moon is round.";
       Thought.action := None; Thought.agent := None;
       Thought.object := None; Thought.destination := None;
       Thought.tense := None; Thought.mood := "declarative_fact";
       Thought.attribute := None; Thought.urgency := "neutral";
       Thought.mood_connotation := "neutral"; Thought.tone := "neutral";
       Thought.entities := []; Thought.preposition := None;
       Thought.tense_aspect := None;
       Thought.learning_fact := Some ("moon", "shape", "round");
       Thought.query_fact := None |} in
  exists reply self',
    generate_response th 1%Z (new [] 0%Z) = (Ok reply, self') /\
    connection_open self' = true /\
    (unique_keys (knowledge (new [] 0%Z)) -> unique_keys (knowledge self')) /\
    ((Thought.mood th <> "declarative_fact" \/
      Thought.learning_fact th = None) -> self' = new [] 0%Z).
Proof.
  intros th.
  apply (response_engine_answers_when_open (new [] 0%Z) th 1%Z).
  reflexivity.
Defined.



End Phase10_responses.

(** ** The interactive loop of the phase 10 program *)

Section Graph_session.
Import Phase10.
Variable parse_sentence : string -> Thought.CoreThought.

Lemma graph_loop_runs inputs :
  forall kge,
    connection_open kge = true -> unique_keys (knowledge kge) ->
    exists printed kge',
      Session.graph_loop parse_sentence inputs kge =
        (printed,
         if Inv.has_quit fst inputs then Session.Quit
         else Session.EndOfInput,
         kge') /\
      connection_open kge' = true /\ unique_keys (knowledge kge') /\
      length printed = length (Inv.before_quit fst inputs).
Proof.
  induction inputs as [|[user_input now] rest IH]; intros kge Hopen Hnd.
  - exists [], kge. repeat split; assumption.
  - simpl. unfold Inv.has_quit. simpl.
    destruct (Py.lower user_input =? "quit") eqn:Hq.
    + exists [], kge. repeat split; assumption.
    + unfold handle_message.
      destruct (generate_response_open_cases
                  kge (parse_sentence user_input) now Hopen)
        as [reply [kge1 [Hreply [Hopen1 [Hnd1 _]]]]].
      rewrite Hreply.
      destruct (IH kge1 Hopen1 (Hnd1 Hnd))
        as [printed [kge' [Hloop [Hopen' [Hnd' Hlen]]]]].
      rewrite Hloop. exists (("AI: " ++ reply) :: printed), kge'.
      repeat split; try assumption. simpl. now rewrite Hlen.
Qed.

(** X12. A session of the phase 10 program never fails in a turn: it
    prints one reply for every line before the first "quit" (in any case)
    and then the goodbye, it ends because of the quit or because the input
    ran out, and either way the engine is closed at the end, its keys
    unique. *)
Theorem graph_session_ends_closed :
  forall db start inputs,
    exists printed kge,
      Session.graph_main parse_sentence db start inputs =
        (printed,
         if Inv.has_quit fst inputs then Session.Quit
         else Session.EndOfInput,
         kge) /\
      connection_open kge = false /\
      unique_keys (knowledge kge) /\
      length printed = S (length (Inv.before_quit fst inputs)) /\
      last printed "" = "AI: Goodbye!".
Proof.
  intros db start inputs. unfold Session.graph_main.
  destruct (graph_loop_runs inputs (new db start) eq_refl
              (new_unique db start))
    as [printed [kge [Hloop [_ [Hnd Hlen]]]]].
  rewrite Hloop.
  exists (printed ++ ["AI: Goodbye!"])%list, (snd (close kge)).
  split; [reflexivity |]. split; [reflexivity |]. split; [exact Hnd |].
  split.
  - rewrite length_app, Hlen. simpl. apply Nat.add_1_r.
  - apply last_last.
Qed.

End Graph_session.

(** ** The enrichment stages *)

(** Read the fields of the records that are written out. *)
Ltac read_fields :=
  cbn [Thought.input_sentence Thought.action Thought.agent Thought.object
       Thought.destination Thought.tense Thought.mood Thought.attribute
       Thought.urgency Thought.mood_connotation Thought.tone
       Thought.entities Thought.preposition Thought.tense_aspect
       Thought.learning_fact Thought.query_fact] in *.

(** Decide every test the goal branches on. *)
Ltac split_tests :=
  repeat (read_fields;
          match goal with
          | |- context [if ?b then _ else _] => destruct b eqn:?
          | |- context [match ?x with _ => _ end] => destruct x eqn:?
          end);
  read_fields.

Section Stages.
Import Thought.

Lemma nuance_keeps_what_tone_reads t :
  input_sentence (Nuance.analyze_thought t) = input_sentence t /\
  action (Nuance.analyze_thought t) = action t /\
  agent (Nuance.analyze_thought t) = agent t /\
  mood (Nuance.analyze_thought t) = mood t /\
  attribute (Nuance.analyze_thought t) = attribute t /\
  tone (Nuance.analyze_thought t) = tone t.
Proof.
  unfold Nuance.analyze_thought. destruct (action t) as [verb|] eqn:E;
    [| rewrite E; repeat split].
  destruct (Nuance.lookup verb Nuance.verb_connotations) as [[u m]|];
    simpl; rewrite ?E; repeat split.
Qed.

Lemma resolve_keeps_what_tone_reads history t :
  input_sentence (Context._resolve_context history t) = input_sentence t /\
  action (Context._resolve_context history t) = action t /\
  mood (Context._resolve_context history t) = mood t /\
  attribute (Context._resolve_context history t) = attribute t.
Proof.
  unfold Context._resolve_context.
  destruct (Context.is_agent_it t); [| repeat split].
  destruct history; [repeat split |].
  destruct (Py.or_else _ _) as [a|]; [| repeat split].
  destruct (Py.truthy (Py.PyStr a)); repeat split.
Qed.

Lemma last_any_default {A} (x : A) (l : list A) (d1 d2 : A) :
  last (x :: l) d1 = last (x :: l) d2.
Proof.
  revert x. induction l as [|y l IH]; intros x; [reflexivity |].
  change (last (x :: y :: l) d1) with (last (y :: l) d1).
  change (last (x :: y :: l) d2) with (last (y :: l) d2).
  apply IH.
Qed.

(** Context resolution by the antecedent the history offers. *)
Lemma resolve_by_antecedent history t :
  Context._resolve_context history t =
  match history with
  | [] => t
  | h :: hs =>
      if Context.is_agent_it t then
        match Py.or_else (object (last (h :: hs) h))
                         (agent (last (h :: hs) h)) with
        | Some a => if Py.truthy (Py.PyStr a) then set_agent a t else t
        | None => t
        end
      else t
  end.
Proof.
  unfold Context._resolve_context. destruct history as [|h hs].
  - now destruct (Context.is_agent_it t).
  - now rewrite (last_any_default h hs t h).
Qed.

(** X14. The three enrichment stages write different fields and none
    reads a field another writes, so their order does not matter: tone
    and nuance commute, and each commutes with context resolution against
    any history. *)
Theorem enrichment_stages_commute :
  forall history t,
    Tone.analyze_thought (Nuance.analyze_thought t)
      = Nuance.analyze_thought (Tone.analyze_thought t) /\
    Context._resolve_context history (Nuance.analyze_thought t)
      = Nuance.analyze_thought (Context._resolve_context history t) /\
    Context._resolve_context history (Tone.analyze_thought t)
      = Tone.analyze_thought (Context._resolve_context history t).
Proof.
  intros history t. rewrite !resolve_by_antecedent.
  destruct t as [sentence act ag obj dest tns md attr urg conn tn
                 ents prep asp lf qf].
  unfold Tone.analyze_thought, Nuance.analyze_thought,
    Tone.has_positive_word, Tone.has_negative_context,
    Context.is_agent_it, set_tone, set_nuance, set_agent.
  split; [| split]; split_tests; try reflexivity; congruence.
Qed.

(** X15. Each stage is idempotent, and tone enrichment does not depend on
    the tone the thought came with: a stale tag is overwritten. *)
Theorem enrichment_stages_are_idempotent :
  forall history t stale,
    Nuance.analyze_thought (Nuance.analyze_thought t)
      = Nuance.analyze_thought t /\
    Tone.analyze_thought (Tone.analyze_thought t) = Tone.analyze_thought t /\
    Tone.analyze_thought (set_tone stale t) = Tone.analyze_thought t /\
    Context._resolve_context history (Context._resolve_context history t)
      = Context._resolve_context history t.
Proof.
  intros history t stale. rewrite !resolve_by_antecedent.
  destruct t as [sentence act ag obj dest tns md attr urg conn tn
                 ents prep asp lf qf].
  unfold Tone.analyze_thought, Nuance.analyze_thought,
    Tone.has_positive_word, Tone.has_negative_context,
    Context.is_agent_it, set_tone, set_nuance, set_agent.
  split; [| split; [| split]]; split_tests; try reflexivity; congruence.
Qed.

End Stages.

(** ** The response engines on thoughts that are not factual *)

Section Plain_replies.
Import Thought.

(** X16. A thought that neither states a fact nor asks for one never
    reaches the knowledge engine of the final response engine: whatever
    the engine is, even one that raises on every call, the reply comes
    and the engine is left as it is. The reply is the sarcasm sentence
    when the tone is sarcastic, even for a question or an observation;
    else the question sentence for an interrogative; else the observation
    about a non-empty attribute; else the acknowledgment. *)
Theorem plain_thought_leaves_the_engine_alone :
  forall (KE : Type) (knowledge_engine : Final.KnowledgeEngine KE)
         (th : CoreThought) (now : datetime) (engine : KE),
    Inv.not_factual th ->
    Final.generate_response knowledge_engine th now engine =
    (Ok (if tone th =? "sarcastic" then
           "Oh no, that sounds frustrating. I hope everything is okay!"
         else if mood th =? "interrogative" then
           "That's a good question. I'm not sure what the answer is."
         else if Py.truthy (Py.of_option (attribute th)) then
           Py.str (Py.of_option (agent th)) ++ " certainly seems to be "
           ++ Py.str (Py.of_option (attribute th))
           ++ ". That's an interesting observation."
         else "I understand. Thank you for telling me."),
     engine).
Proof.
  intros KE knowledge_engine th now engine [Hlearn Hask].
  unfold Final.generate_response.
  assert (H1 : (if mood th =? "declarative_fact" then learning_fact th
                else None) = None).
  { destruct Hlearn as [H | H].
    - apply String.eqb_neq in H. now rewrite H.
    - rewrite H. now destruct (mood th =? "declarative_fact"). }
  assert (H2 : (if mood th =? "interrogative_fact" then query_fact th
                else None) = None).
  { destruct Hask as [H | H].
    - apply String.eqb_neq in H. now rewrite H.
    - rewrite H. now destruct (mood th =? "interrogative_fact"). }
  rewrite H1, H2.
  destruct (tone th =? "sarcastic"); [reflexivity |].
  destruct (mood th =? "interrogative"); [reflexivity |].
  destruct (Py.truthy (Py.of_option (attribute th))); reflexivity.
Qed.

(** X16, at work: on a closed store a remark is still acknowledged. *)
Lemma plain_thought_leaves_the_engine_alone_witness :
  let closed := snd (Phase9.close (Phase9.new [] 0%Z)) in
  let th := Spec.action_thought "I walked home." "walk" (Some "I") None in
  Final.generate_response Final.phase9_engine th 1%Z closed =
  (Ok (if tone th =? "sarcastic" then
         "Oh no, that sounds frustrating. I hope everything is okay!"
       else if mood th =? "interrogative" then
         "That's a good question. I'm not sure what the answer is."
       else if Py.truthy (Py.of_option (attribute th)) then
         Py.str (Py.of_option (agent th)) ++ " certainly seems to be "
         ++ Py.str (Py.of_option (attribute th))
         ++ ". That's an interesting observation."
       else "I understand. Thank you for telling me."),
   closed).
Proof.
  intros closed th.
  apply (plain_thought_leaves_the_engine_alone
           Phase9.KnowledgeGraphEngine Final.phase9_engine th 1%Z closed).
  split; left; discriminate.
Defined.

Lemma tone_keeps_the_other_fields t :
  mood (Tone.analyze_thought t) = mood t /\
  attribute (Tone.analyze_thought t) = attribute t /\
  agent (Tone.analyze_thought t) = agent t.
Proof.
  unfold Tone.analyze_thought.
  destruct (Tone.has_positive_word _ && Tone.has_negative_context _);
    repeat split.
Qed.

(** What the chat pipeline makes of a parsed thought. *)
Lemma chat_final_thought_fields history t :
  let final_thought :=
    Tone.analyze_thought
      (Nuance.analyze_thought (Context._resolve_context history t)) in
  tone final_thought =
    (if Tone.has_positive_word t && Tone.has_negative_context t
     then "sarcastic" else "neutral") /\
  mood final_thought = mood t /\
  attribute final_thought = attribute t /\
  (agent t = None -> agent final_thought = None).
Proof.
  intros final_thought. unfold final_thought.
  destruct (nuance_keeps_what_tone_reads (Context._resolve_context history t))
    as [Ns [Na [Ng [Nm [Nt _]]]]].
  destruct (resolve_keeps_what_tone_reads history t) as [Rs [Ra [Rm Rt]]].
  destruct (tone_keeps_the_other_fields
              (Nuance.analyze_thought (Context._resolve_context history t)))
    as [Tm [Tt Tg]].
  split; [| split; [| split]].
  - rewrite analyze_thought_tone.
    unfold Tone.has_positive_word, Tone.has_negative_context.
    now rewrite Ns, Na, Rs, Ra.
  - now rewrite Tm, Nm, Rm.
  - now rewrite Tt, Nt, Rt.
  - intros Hnone. rewrite Tg, Ng.
    unfold Context._resolve_context, Context.is_agent_it.
    now rewrite Hnone.
Qed.

(** X17. In the chat program sarcasm wins over everything: when the
    sentence, in lower case, contains a positive word and the action is a
    negative-context verb, the reply to the message is the sarcasm
    sentence, whatever the mood, the attribute and the history, and the
    thought appended to the history carries the tone "sarcastic". *)
Theorem chat_answers_sarcasm_first :
  forall (parse_sentence : string -> CoreThought) message dm,
    (exists w, In w Tone.sarcastic_positives /\
               Spec.occurs_in w
                 (Py.lower (input_sentence (parse_sentence message)))) ->
    (exists a, action (parse_sentence message) = Some a /\
               In a Tone.negative_context_verbs) ->
    exists final_thought,
      Chat.get_response parse_sentence message dm =
        (Ok "Oh no, that sounds frustrating. I hope everything is okay!",
         {| Chat.conversation_history :=
              Chat.conversation_history dm ++ [final_thought] |}) /\
      tone final_thought = "sarcastic".
Proof.
  intros parse_sentence message dm Hpos Hneg.
  apply has_positive_word_spec in Hpos.
  apply has_negative_context_spec in Hneg.
  rewrite chat_turn_appends_then_decides. cbv zeta.
  destruct (chat_final_thought_fields (Chat.conversation_history dm)
              (parse_sentence message)) as [Htone _].
  rewrite Hpos, Hneg in Htone. simpl in Htone.
  eexists. split; [| exact Htone].
  unfold Chat.generate_response. rewrite Htone. reflexivity.
Qed.

(** X17, at work: a sarcastic question is not answered as a question. *)
Lemma chat_answers_sarcasm_first_witness :
  let question :=
    {| input_sentence := "Isn't it just wonderful that I lost my keys?";
       action := Some "lose"; agent := Some "I";
       object := Some "my keys"; destination := None;
       tense := Some "past"; mood := "interrogative";
       attribute := None; urgency := "neutral";
       mood_connotation := "neutral"; tone := "neutral"; entities := [];
       preposition := None; tense_aspect := None;
       learning_fact := None; query_fact := None |} in
  exists final_thought,
    Chat.get_response (fun _ => question) "Isn't it just wonderful?"
                      {| Chat.conversation_history := [] |} =
      (Ok "Oh no, that sounds frustrating. I hope everything is okay!",
       {| Chat.conversation_history := [] ++ [final_thought] |}) /\
    tone final_thought = "sarcastic".
Proof.
  intros question.
  apply (chat_answers_sarcasm_first (fun _ => question)
           "Isn't it just wonderful?" {| Chat.conversation_history := [] |}).
  - exists "wonderful". split.
    + simpl. auto.
    + apply contains_spec. reflexivity.
  - exists "lose". split; [reflexivity | simpl; auto].
Defined.

(** X18. The observation rule prints the agent as it finds it: the
    parser writes the key [agent] into every thought, so the default of
    [get] never applies, and a thought without agent that has an
    attribute, is not a question and is not sarcastic is answered with
    "None certainly seems to be ...". *)
Theorem observation_without_agent_says_none :
  forall (parse_sentence : string -> CoreThought) message dm a,
    agent (parse_sentence message) = None ->
    attribute (parse_sentence message) = Some a -> a <> "" ->
    mood (parse_sentence message) <> "interrogative" ->
    Tone.has_positive_word (parse_sentence message)
      && Tone.has_negative_context (parse_sentence message) = false ->
    fst (Chat.get_response parse_sentence message dm) =
      Ok ("None certainly seems to be " ++ a
          ++ ". It's an interesting observation.").
Proof.
  intros parse_sentence message dm a Hagent Hattr Ha Hmood Hplain.
  rewrite chat_turn_appends_then_decides. cbv zeta. simpl fst.
  destruct (chat_final_thought_fields (Chat.conversation_history dm)
              (parse_sentence message)) as [Htone [Hm [Hat Hag]]].
  rewrite Hplain in Htone. specialize (Hag Hagent).
  unfold Chat.generate_response. rewrite Htone, Hm, Hat, Hag, Hattr.
  apply String.eqb_neq in Hmood, Ha. rewrite Hmood. simpl.
  rewrite Ha. reflexivity.
Qed.

(** X18, at work: "Seems fast." *)
Lemma observation_without_agent_says_none_witness :
  let seems_fast :=
    {| input_sentence := "Seems fast."; action := Some "seem";
       agent := None; object := None; destination := None;
       tense := Some "present"; mood := "indicative";
       attribute := Some "fast"; urgency := "neutral";
       mood_connotation := "neutral"; tone := "neutral"; entities := [];
       preposition := None; tense_aspect := None;
       learning_fact := None; query_fact := None |} in
  fst (Chat.get_response (fun _ => seems_fast) "Seems fast."
                         {| Chat.conversation_history := [] |}) =
    Ok ("None certainly seems to be " ++ "fast"
        ++ ". It's an interesting observation.").
Proof.
  intros seems_fast.
  apply (observation_without_agent_says_none (fun _ => seems_fast)
           "Seems fast." {| Chat.conversation_history := [] |} "fast").
  - reflexivity.
  - reflexivity.
  - discriminate.
  - discriminate.
  - reflexivity.
Defined.

End Plain_replies.

(** ** The interactive loop of the chat program *)

Section Chat_session.
Variable parse_sentence : string -> Thought.CoreThought.

(** X19. A session of the chat program prints one reply for every line
    before the first "quit" (in any case) and the goodbye if there is a
    quit; it never fails in a turn, and it appends one thought to the
    history for every such line, never touching the thoughts already
    there. *)
Theorem chat_session_keeps_one_thought_per_turn :
  forall inputs ai,
    exists printed ai',
      Session.chat_loop parse_sentence inputs ai =
        (printed,
         if Inv.has_quit (fun x => x) inputs then Session.Quit
         else Session.EndOfInput,
         ai') /\
      length (Chat.conversation_history ai') =
        length (Chat.conversation_history ai)
        + length (Inv.before_quit (fun x => x) inputs) /\
      firstn (length (Chat.conversation_history ai))
             (Chat.conversation_history ai') = Chat.conversation_history ai /\
      length printed =
        length (Inv.before_quit (fun x => x) inputs)
        + (if Inv.has_quit (fun x => x) inputs then 1 else 0).
Proof.
  intros inputs. induction inputs as [|user_input rest IH]; intros ai.
  - exists [], ai. simpl. rewrite Nat.add_0_r, firstn_all. auto.
  - unfold Inv.has_quit.
    cbn [Session.chat_loop Inv.before_quit existsb].
    destruct (Py.lower user_input =? "quit") eqn:Hq.
    + exists ["AI: Goodbye!"], ai. simpl.
      rewrite Nat.add_0_r, firstn_all. auto.
    + rewrite chat_turn_appends_then_decides. cbv zeta.
      match goal with
      | |- context [Session.chat_loop _ rest ?next] =>
          destruct (IH next) as [printed [ai' [Hloop [Hlen [Hpre Hout]]]]];
          rewrite Hloop
      end.
      cbn [Chat.conversation_history] in Hlen, Hpre.
      rewrite length_app in Hlen, Hpre. cbn [length] in Hlen, Hpre.
      eexists; eexists. split; [reflexivity |].
      cbn [orb length]. fold (Inv.has_quit (fun x : string => x) rest).
      split; [rewrite Hlen; lia |].
      split.
      * assert (Hcut :
          firstn (length (Chat.conversation_history ai))
                 (firstn (length (Chat.conversation_history ai) + 1)
                         (Chat.conversation_history ai'))
          = firstn (length (Chat.conversation_history ai))
                   (Chat.conversation_history ai')).
        { rewrite firstn_firstn. f_equal. lia. }
        rewrite <- Hcut, Hpre, firstn_app, Nat.sub_diag, firstn_all.
        simpl. apply app_nil_r.
      * rewrite Hout. reflexivity.
Qed.

End Chat_session.

(** ** Nuance *)

Section Nuance_facts.
Import Thought.




End Nuance_facts.

(** ** The history carries the antecedent from one turn to the next *)

Section Two_turns.
Import Thought.

Lemma stages_keep_the_object history t :
  object (Tone.analyze_thought
            (Nuance.analyze_thought (Context._resolve_context history t)))
  = object t.
Proof.
  assert (Ht : forall x, object (Tone.analyze_thought x) = object x).
  { intros x. unfold Tone.analyze_thought.
    now destruct (Tone.has_positive_word _ && Tone.has_negative_context _). }
  assert (Hn : forall x, object (Nuance.analyze_thought x) = object x).
  { intros x. unfold Nuance.analyze_thought.
    destruct (action x) as [verb|]; [| reflexivity].
    now destruct (Nuance.lookup verb Nuance.verb_connotations) as [[u m]|]. }
  rewrite Ht, Hn. unfold Context._resolve_context.
  destruct (Context.is_agent_it t); [| reflexivity].
  destruct history; [reflexivity |].
  destruct (Py.or_else _ _) as [a|]; [| reflexivity].
  now destruct (Py.truthy (Py.PyStr a)).
Qed.

(** X21. Two turns of the chat program: when the first message has a
    non-empty object and the agent of the second is "it" in any case, the
    two thoughts are appended to the history in order, the first with the
    object the parser gave it, and the second with that object as its
    agent, whatever stood in the history before. *)
Theorem pronoun_resolves_to_previous_object :
  forall (parse_sentence : string -> CoreThought) first second dm o,
    Spec.present (object (parse_sentence first)) o ->
    Spec.agent_is_it (parse_sentence second) ->
    let dm1 := snd (Chat.get_response parse_sentence first dm) in
    let dm2 := snd (Chat.get_response parse_sentence second dm1) in
    exists thought1 thought2,
      Chat.conversation_history dm2 =
        (Chat.conversation_history dm ++ [thought1; thought2])%list /\
      object thought1 = Some o /\
      agent thought2 = Some o /\
      input_sentence thought2 = input_sentence (parse_sentence second).
Proof.
  intros parse_sentence first second dm o Hobj Hit dm1 dm2.
  unfold dm2, dm1. rewrite !chat_turn_appends_then_decides.
  cbv zeta. cbn [snd Chat.conversation_history].
  set (thought1 :=
         Tone.analyze_thought
           (Nuance.analyze_thought
              (Context._resolve_context (Chat.conversation_history dm)
                                        (parse_sentence first)))).
  assert (H1 : object thought1 = Some o).
  { unfold thought1. rewrite stages_keep_the_object. exact (proj1 Hobj). }
  eexists thought1, _. split; [now rewrite <- app_assoc |].
  split; [exact H1 |].
  rewrite resolve_context_last.
  apply is_agent_it_spec in Hit. rewrite Hit.
  unfold Py.or_else. rewrite H1.
  destruct Hobj as [_ Hne]. apply String.eqb_neq in Hne.
  cbn [Py.of_option Py.truthy]. rewrite Hne. cbn [negb].
  rewrite Hne. cbn [negb].
  destruct (tone_keeps_the_other_fields
              (Nuance.analyze_thought
                 (set_agent o (parse_sentence second)))) as [_ [_ Hag]].
  destruct (nuance_keeps_what_tone_reads
              (set_agent o (parse_sentence second)))
    as [Hs [_ [Hg _]]].
  split.
  - now rewrite Hag, Hg.
  - transitivity
      (input_sentence
         (Nuance.analyze_thought (set_agent o (parse_sentence second)))).
    + unfold Tone.analyze_thought.
      now destruct (Tone.has_positive_word _
                    && Tone.has_negative_context _).
    + now rewrite Hs.
Qed.

(** X21, at work: "I dropped the ball.", then "It rolled away.". *)
Lemma pronoun_resolves_to_previous_object_witness :
  let parse := fun message =>
    if message =? "I dropped the ball." then
      Spec.action_thought message "drop" (Some "I") (Some "the ball")
    else Spec.action_thought message "roll" (Some "It") None in
  let dm := {| Chat.conversation_history := [] |} in
  let dm1 := snd (Chat.get_response parse "I dropped the ball." dm) in
  let dm2 := snd (Chat.get_response parse "It rolled away." dm1) in
  exists thought1 thought2,
    Chat.conversation_history dm2 =
      (Chat.conversation_history dm ++ [thought1; thought2])%list /\
    object thought1 = Some "the ball" /\
    agent thought2 = Some "the ball" /\
    input_sentence thought2 = input_sentence (parse "It rolled away.").
Proof.
  intros parse dm.
  apply (pronoun_resolves_to_previous_object parse
           "I dropped the ball." "It rolled away." dm "the ball").
  - split; [reflexivity | discriminate].
  - exists "It". split; reflexivity.
Defined.

End Two_turns.

(** * The engines over any case mapping

    The statements below hold of the methods whatever function
    [str.lower] is, and so of the code on every text; each is applied at
    [Py.lower] to inputs in mixed case. *)

(** The methods of [Phase9], [Phase10] and [Parser10] are the methods
    over a mapping, at [Py.lower]. *)
Lemma methods_at_ascii_lower :
  (forall s r f src now,
     Phase9U.learn_fact Py.lower s r f src now
     = Phase9.learn_fact s r f src now) /\
  (forall s r, Phase9U.query_facts Py.lower s r = Phase9.query_facts s r) /\
  (forall db now, Phase9U.new Py.lower db now = Phase9.new db now) /\
  (forall s r f src now,
     Phase10U.learn_fact Py.lower s r f src now
     = Phase10.learn_fact s r f src now) /\
  (forall s r, Phase10U.query_facts Py.lower s r = Phase10.query_facts s r) /\
  (forall fact_text,
     Parser10U._infer_relationship Py.lower fact_text
     = Parser10._infer_relationship fact_text).
Proof. repeat split. Qed.

Section Phase9_any_mapping.
Import Phase9.
Variable lower : string -> string.

Lemma query_facts_open_any rows S R :
  Phase9U.query_facts lower S R (Spec.opened rows) =
  (Ok (map fact (filter (where_key (lower S) (lower R)) rows)),
   Spec.opened rows).
Proof. reflexivity. Qed.

Lemma query_facts_when_open self S R :
  connection_open self = true ->
  Phase9U.query_facts lower S R self =
  (Ok (map fact (filter (where_key (lower S) (lower R)) (knowledge self))),
   self).
Proof. destruct self as [o rows]. simpl. now intros ->. Qed.

(** What [learn_fact] does on an open connection, by the rows already
    under the key. *)
Lemma learn_fact_open_any rows s r f src now :
  Phase9U.learn_fact lower s r f src now (Spec.opened rows) =
  let existing := filter (where_key (lower s) (lower r)) rows in
  let learned :=
    (Ok "LEARNED_SUCCESSFULLY",
     Spec.opened (rows ++ [SpecU.learned_row lower s r f src now])) in
  match existing with
  | [] => learned
  | x :: _ =>
      if Py.mem (lower r) singular_relationships && is_immutable x
      then (Ok "CONFLICT_WITH_CONSTANT", Spec.opened rows)
      else if existsb (fun y => lower f =? lower (fact y)) existing
      then (Ok "ALREADY_KNOWN", Spec.opened rows)
      else learned
  end.
Proof.
  unfold Phase9U.learn_fact, bind, select, Spec.opened;
    cbn -[Py.mem existsb].
  destruct (filter (where_key (lower s) (lower r)) rows)
    as [|x existing] eqn:E; cbn -[Py.mem existsb]; [reflexivity |].
  destruct (Py.mem (lower r) singular_relationships && is_immutable x);
    [reflexivity |].
  change ((fact x, is_immutable x)
          :: map (fun y => (fact y, is_immutable y)) existing)
    with (map (fun y => (fact y, is_immutable y)) (x :: existing)).
  rewrite existsb_map.
  destruct (existsb _ (x :: existing)); reflexivity.
Qed.

Lemma learn_fact_closed_any rows s r f src now :
  Phase9U.learn_fact lower s r f src now
    {| connection_open := false; knowledge := rows |} =
  (Raised ProgrammingError,
   {| connection_open := false; knowledge := rows |}).
Proof. reflexivity. Qed.

Lemma learn_fact_ok_open_any self s r f src now o self' :
  Phase9U.learn_fact lower s r f src now self = (Ok o, self') ->
  connection_open self = true.
Proof.
  destruct self as [[|] rows]; [reflexivity |].
  rewrite learn_fact_closed_any. discriminate.
Qed.

(** The outcomes of [learn_fact], and what each does to the table. *)
Lemma learn_fact_outcomes_any self s r f src now :
  connection_open self = true ->
  (Phase9U.learn_fact lower s r f src now self
     = (Ok "CONFLICT_WITH_CONSTANT", self)) \/
  (Phase9U.learn_fact lower s r f src now self
     = (Ok "ALREADY_KNOWN", self)) \/
  (Phase9U.learn_fact lower s r f src now self =
     (Ok "LEARNED_SUCCESSFULLY",
      Spec.opened (knowledge self
                   ++ [SpecU.learned_row lower s r f src now]))).
Proof.
  intros Hopen. destruct self as [o rows]. simpl in Hopen. subst o.
  change {| connection_open := true; knowledge := rows |}
    with (Spec.opened rows).
  rewrite learn_fact_open_any. cbn zeta. simpl knowledge.
  destruct (filter _ rows) as [|x existing]; [auto |].
  destruct (Py.mem _ _ && is_immutable x); [auto |].
  destruct (existsb _ (x :: existing)); auto.
Qed.

Lemma learned_row_under_its_key s r f src now S R :
  lower S = lower s -> lower R = lower r ->
  where_key (lower S) (lower R) (SpecU.learned_row lower s r f src now)
  = true.
Proof.
  unfold where_key; simpl. intros -> ->. now rewrite !String.eqb_refl.
Qed.

Lemma unknown_fact_not_found rows s r f :
  ~ SpecU.knows lower rows s r f ->
  existsb (fun y => lower f =? lower (fact y))
          (filter (where_key (lower s) (lower r)) rows) = false.
Proof.
  intros Hnk. apply not_true_is_false. intros H.
  apply existsb_exists in H. destruct H as [y [Hy He]].
  apply filter_In in Hy. destruct Hy as [Hin Hk].
  apply String.eqb_eq in He. unfold where_key in Hk.
  apply andb_true_iff in Hk. destruct Hk as [Hs Hr].
  apply String.eqb_eq in Hs, Hr.
  apply Hnk. exists y. auto.
Qed.

Lemma not_found_is_unknown rows s r f :
  existsb (fun y => lower f =? lower (fact y))
          (filter (where_key (lower s) (lower r)) rows) = false ->
  ~ SpecU.knows lower rows s r f.
Proof.
  intros Hex [x [Hin [Hs [Hr Hf]]]].
  apply not_true_iff_false in Hex. apply Hex.
  apply existsb_exists. exists x. split.
  - apply filter_In. split; [assumption |].
    unfold where_key. rewrite Hs, Hr. now rewrite !String.eqb_refl.
  - rewrite Hf. apply String.eqb_refl.
Qed.

(** Learning a fact the table does not know under a plural relationship
    appends its row. *)
Lemma learn_unknown_plural rows s r f src now :
  SpecU.plural lower r -> ~ SpecU.knows lower rows s r f ->
  Phase9U.learn_fact lower s r f src now (Spec.opened rows) =
  (Ok "LEARNED_SUCCESSFULLY",
   Spec.opened (rows ++ [SpecU.learned_row lower s r f src now])).
Proof.
  intros Hpl Hnk. rewrite learn_fact_open_any. cbn zeta.
  pose proof (unknown_fact_not_found _ _ _ _ Hnk) as Hex.
  destruct (filter _ rows) as [|x existing]; [reflexivity |].
  unfold SpecU.plural in Hpl. rewrite Hpl, Hex. reflexivity.
Qed.

Lemma query_after_learning rows s r f src now S R :
  lower S = lower s -> lower R = lower r ->
  Phase9U.query_facts lower S R
    (Spec.opened (rows ++ [SpecU.learned_row lower s r f src now])) =
  (Ok (map fact (filter (where_key (lower S) (lower R)) rows)
       ++ [f])%list,
   Spec.opened (rows ++ [SpecU.learned_row lower s r f src now])).
Proof.
  intros HS HR. rewrite query_facts_open_any, filter_app, map_app. simpl.
  now rewrite (learned_row_under_its_key s r f src now S R HS HR).
Qed.

Lemma only_once_at_the_end (l : list string) (f : string) :
  existsb (fun y => lower f =? lower y) l = false ->
  count_occ string_dec (l ++ [f]) f = 1 /\
  length (filter (fun x => lower x =? lower f) (l ++ [f])) = 1.
Proof.
  induction l as [|x xs IH]; simpl.
  - intros _. rewrite String.eqb_refl.
    destruct (string_dec f f); [auto | congruence].
  - intros Hex. apply orb_false_iff in Hex. destruct Hex as [Hx Hxs].
    rewrite String.eqb_sym, Hx.
    destruct (string_dec x f) as [Heq | _].
    + rewrite Heq, String.eqb_refl in Hx. discriminate.
    + now apply IH.
Qed.

End Phase9_any_mapping.

Section Phase9_claims_any_mapping.
Import Phase9.

(** C4. Under a plural relationship, two facts that the case mapping
    keeps apart and that the table does not hold yet under the key are
    both learned ([LEARNED_SUCCESSFULLY] twice), and a query of the key,
    written in any case, then returns what it returned before followed by
    the two facts in the order they were learned; a query that no row
    matches returns the empty list, it does not raise. This holds for
    every case mapping, Python's among them. *)
Theorem plural_facts_accumulate :
  (forall lower self s r f1 f2 src1 src2 t1 t2 S R,
     connection_open self = true ->
     SpecU.plural lower r ->
     ~ SpecU.knows lower (knowledge self) s r f1 ->
     ~ SpecU.knows lower (knowledge self) s r f2 ->
     lower f1 <> lower f2 ->
     lower S = lower s -> lower R = lower r ->
     exists self1 self2 before,
       Phase9U.learn_fact lower s r f1 src1 t1 self
         = (Ok "LEARNED_SUCCESSFULLY", self1) /\
       Phase9U.learn_fact lower s r f2 src2 t2 self1
         = (Ok "LEARNED_SUCCESSFULLY", self2) /\
       Phase9U.query_facts lower S R self = (Ok before, self) /\
       Phase9U.query_facts lower S R self2
         = (Ok (before ++ [f1; f2])%list, self2)) /\
  (forall lower self S R,
     connection_open self = true ->
     (forall x, In x (knowledge self) ->
                where_key (lower S) (lower R) x = false) ->
     Phase9U.query_facts lower S R self = (Ok [], self)).
Proof.
  split.
  - intros lower self s r f1 f2 src1 src2 t1 t2 S R
           Hopen Hpl Hn1 Hn2 Hne HS HR.
    rewrite (open_engine self Hopen). set (rows := knowledge self) in *.
    exists (Spec.opened (rows ++ [SpecU.learned_row lower s r f1 src1 t1])),
      (Spec.opened ((rows ++ [SpecU.learned_row lower s r f1 src1 t1])
                    ++ [SpecU.learned_row lower s r f2 src2 t2])),
      (map fact (filter (where_key (lower S) (lower R)) rows)).
    split; [now apply learn_unknown_plural |].
    split.
    + apply learn_unknown_plural; [assumption |].
      intros [x [Hin [Hs [Hr Hf]]]]. apply in_app_or in Hin.
      destruct Hin as [Hin | [<- | []]].
      * apply Hn2. exists x. auto.
      * simpl in Hf. now apply Hne.
    + split; [apply query_facts_open_any |].
      rewrite (query_after_learning lower _ s r f2 src2 t2 S R HS HR).
      rewrite filter_app, map_app. simpl.
      rewrite (learned_row_under_its_key lower s r f1 src1 t1 S R HS HR).
      simpl. now rewrite <- app_assoc.
  - intros lower self S R Hopen Hnone.
    rewrite (query_facts_when_open lower self S R Hopen).
    replace (filter _ (knowledge self)) with (@nil row); [reflexivity |].
    symmetry. induction (knowledge self) as [|x rows IH]; [reflexivity |].
    simpl. rewrite (Hnone x (or_introl eq_refl)).
    apply IH. intros y Hy. apply Hnone. now right.
Qed.

(** C4, at the seeded table, with the ASCII mapping: "door" and "roof" are
    learned as parts of the car, and the query for "Car", "HAS_PART"
    returns engine, wheel, door, roof; nothing is known of the colour of
    the moon. *)
Lemma plural_facts_accumulate_witness :
  (exists self1 self2 before,
     Phase9U.learn_fact Py.lower "car" "has_part" "door" "user" 1%Z
       (new [] 0%Z) = (Ok "LEARNED_SUCCESSFULLY", self1) /\
     Phase9U.learn_fact Py.lower "car" "has_part" "roof" "user" 2%Z self1
       = (Ok "LEARNED_SUCCESSFULLY", self2) /\
     Phase9U.query_facts Py.lower "Car" "HAS_PART" (new [] 0%Z)
       = (Ok before, new [] 0%Z) /\
     Phase9U.query_facts Py.lower "Car" "HAS_PART" self2
       = (Ok (before ++ ["door"; "roof"])%list, self2)) /\
  Phase9U.query_facts Py.lower "Moon" "Colour" (new [] 0%Z)
    = (Ok [], new [] 0%Z) /\
  fst (query_facts "Car" "HAS_PART"
         (snd (learn_fact "car" "has_part" "roof" "user" 2%Z
                 (snd (learn_fact "car" "has_part" "door" "user" 1%Z
                                  (new [] 0%Z))))))
    = Ok ["engine"; "wheel"; "door"; "roof"].
Proof.
  split; [| split].
  - apply (proj1 plural_facts_accumulate Py.lower).
    + reflexivity.
    + reflexivity.
    + apply not_found_is_unknown. reflexivity.
    + apply not_found_is_unknown. reflexivity.
    + vm_compute. discriminate.
    + reflexivity.
    + reflexivity.
  - apply (proj2 plural_facts_accumulate Py.lower).
    + reflexivity.
    + intros x Hin. rewrite new_empty in Hin. simpl in Hin.
      repeat (destruct Hin as [<- | Hin]; [reflexivity |]).
      contradiction.
  - reflexivity.
Defined.

(** C5. Under a plural relationship, a fact the table does not hold yet is
    learned by the first call ([LEARNED_SUCCESSFULLY]); a second call with
    the same triple, written in any case, answers [ALREADY_KNOWN] and leaves
    the engine as it was, so that the query of the key returns the fact
    exactly once (also when facts are compared up to case). Whenever
    [learn_fact] answers [ALREADY_KNOWN] the engine is unchanged. This
    holds for every case mapping, Python's among them. *)
Theorem plural_fact_learned_once :
  (forall lower self s r f S R F src src' t t',
     connection_open self = true ->
     SpecU.plural lower r ->
     ~ SpecU.knows lower (knowledge self) s r f ->
     lower S = lower s -> lower R = lower r -> lower F = lower f ->
     exists self1 facts,
       Phase9U.learn_fact lower s r f src t self
         = (Ok "LEARNED_SUCCESSFULLY", self1) /\
       Phase9U.learn_fact lower S R F src' t' self1
         = (Ok "ALREADY_KNOWN", self1) /\
       Phase9U.query_facts lower s r self1 = (Ok facts, self1) /\
       count_occ string_dec facts f = 1 /\
       length (filter (fun x => lower x =? lower f) facts) = 1) /\
  (forall lower self s r f src t self',
     Phase9U.learn_fact lower s r f src t self
       = (Ok "ALREADY_KNOWN", self') ->
     self' = self).
Proof.
  split.
  - intros lower self s r f S R F src src' t t' Hopen Hpl Hnk HS HR HF.
    rewrite (open_engine self Hopen). set (rows := knowledge self) in *.
    set (rows1 := (rows ++ [SpecU.learned_row lower s r f src t])%list).
    exists (Spec.opened rows1),
      (map fact (filter (where_key (lower s) (lower r)) rows)
       ++ [f])%list.
    split; [now apply learn_unknown_plural |].
    assert (Hrow : filter (where_key (lower s) (lower r)) rows1 =
                   (filter (where_key (lower s) (lower r)) rows
                    ++ [SpecU.learned_row lower s r f src t])%list).
    { unfold rows1. rewrite filter_app. simpl.
      now rewrite (learned_row_under_its_key lower s r f src t s r
                     eq_refl eq_refl). }
    split.
    + rewrite learn_fact_open_any. cbn zeta. rewrite HS, HR, Hrow.
      destruct (filter _ rows ++ [_])%list as [|x rest] eqn:E.
      * now destruct (filter _ rows).
      * unfold SpecU.plural in Hpl. rewrite Hpl. cbn [andb].
        rewrite <- E, existsb_app. simpl.
        rewrite HF, String.eqb_refl. now rewrite orb_true_r.
    + split;
        [apply (query_after_learning lower rows s r f src t s r);
         reflexivity |].
      apply only_once_at_the_end. rewrite existsb_map.
      exact (unknown_fact_not_found lower _ _ _ _ Hnk).
  - intros lower self s r f src t self' H.
    pose proof (learn_fact_ok_open_any lower _ _ _ _ _ _ _ _ H) as Hopen.
    destruct (learn_fact_outcomes_any lower self s r f src t Hopen)
      as [E | [E | E]]; rewrite E in H; inversion H; reflexivity.
Qed.

(** C5, at the seeded table, with the ASCII mapping: "door" is learned,
    "DOOR" under "Car", "Has_Part" is already known; a wheel the car has
    leaves the engine as it was. *)
Lemma plural_fact_learned_once_witness :
  (exists self1 facts,
     Phase9U.learn_fact Py.lower "car" "has_part" "door" "user" 1%Z
       (new [] 0%Z) = (Ok "LEARNED_SUCCESSFULLY", self1) /\
     Phase9U.learn_fact Py.lower "Car" "Has_Part" "DOOR" "user" 2%Z self1
       = (Ok "ALREADY_KNOWN", self1) /\
     Phase9U.query_facts Py.lower "car" "has_part" self1
       = (Ok facts, self1) /\
     count_occ string_dec facts "door" = 1 /\
     length (filter (fun x => Py.lower x =? Py.lower "door") facts) = 1) /\
  snd (Phase9U.learn_fact Py.lower "car" "has_part" "Wheel" "user" 1%Z
         (new [] 0%Z))
    = new [] 0%Z /\
  fst (query_facts "car" "has_part"
         (snd (learn_fact "Car" "Has_Part" "DOOR" "user" 2%Z
                 (snd (learn_fact "car" "has_part" "door" "user" 1%Z
                                  (new [] 0%Z))))))
    = Ok ["engine"; "wheel"; "door"].
Proof.
  split; [| split].
  - apply (proj1 plural_fact_learned_once Py.lower).
    + reflexivity.
    + reflexivity.
    + apply not_found_is_unknown. reflexivity.
    + reflexivity.
    + reflexivity.
    + reflexivity.
  - apply (proj2 plural_fact_learned_once Py.lower
             (new [] 0%Z) "car" "has_part" "Wheel" "user" 1%Z).
    reflexivity.
  - reflexivity.
Defined.

(** C10, amended. [learn_fact] writes the subject and the relationship as
    the case mapping gives them and the fact as it was given: when it
    answers [LEARNED_SUCCESSFULLY] it has appended exactly that row, and a
    query of the key, written in any case, then returns what it returned
    before followed by that fact, character for character. When it
    answers [ALREADY_KNOWN] or [CONFLICT_WITH_CONSTANT] it has stored
    nothing: the engine is as it was. This holds for every case mapping,
    Python's among them. *)
Theorem learned_fact_is_stored_verbatim :
  (forall lower self s r f src t self' S R,
     Phase9U.learn_fact lower s r f src t self
       = (Ok "LEARNED_SUCCESSFULLY", self') ->
     lower S = lower s -> lower R = lower r ->
     exists before,
       knowledge self' =
         (knowledge self
          ++ [{| subject := lower s; relationship := lower r; fact := f;
                 is_immutable := false; source := src;
                 timestamp := t |}])%list /\
       Phase9U.query_facts lower S R self = (Ok before, self) /\
       Phase9U.query_facts lower S R self'
         = (Ok (before ++ [f])%list, self') /\
       In f (before ++ [f])%list) /\
  (forall lower self s r f src t o self',
     Phase9U.learn_fact lower s r f src t self = (Ok o, self') ->
     o = "ALREADY_KNOWN" \/ o = "CONFLICT_WITH_CONSTANT" ->
     self' = self /\ knowledge self' = knowledge self).
Proof.
  split.
  - intros lower self s r f src t self' S R H HS HR.
    pose proof (learn_fact_ok_open_any lower _ _ _ _ _ _ _ _ H) as Hopen.
    exists (map fact (filter (where_key (lower S) (lower R))
                             (knowledge self))).
    destruct (learn_fact_outcomes_any lower self s r f src t Hopen)
      as [E | [E | E]]; rewrite E in H; inversion H; subst.
    split; [reflexivity |].
    split; [now apply query_facts_when_open |].
    split; [now apply query_after_learning |].
    apply in_or_app. right. now left.
  - intros lower self s r f src t o self' H Ho.
    pose proof (learn_fact_ok_open_any lower _ _ _ _ _ _ _ _ H) as Hopen.
    destruct (learn_fact_outcomes_any lower self s r f src t Hopen)
      as [E | [E | E]]; rewrite E in H; inversion H; subst.
    + split; reflexivity.
    + split; reflexivity.
    + destruct Ho; discriminate.
Qed.

(** C10 amended, at the seeded table, with the ASCII mapping: "Door",
    learned for "Car", comes back as "Door" under "CAR", "Has_Part", in a
    row whose subject is "car"; "ENGINE" is already known and changes
    nothing. *)
Lemma learned_fact_is_stored_verbatim_witness :
  let after :=
    snd (Phase9U.learn_fact Py.lower "Car" "has_part" "Door" "user" 1%Z
           (new [] 0%Z)) in
  (exists before,
     knowledge after =
       (knowledge (new [] 0%Z)
        ++ [{| subject := Py.lower "Car"; relationship := Py.lower "has_part";
               fact := "Door"; is_immutable := false; source := "user";
               timestamp := 1%Z |}])%list /\
     Phase9U.query_facts Py.lower "CAR" "Has_Part" (new [] 0%Z)
       = (Ok before, new [] 0%Z) /\
     Phase9U.query_facts Py.lower "CAR" "Has_Part" after
       = (Ok (before ++ ["Door"])%list, after) /\
     In "Door" (before ++ ["Door"])%list) /\
  (snd (Phase9U.learn_fact Py.lower "car" "has_part" "ENGINE" "user" 1%Z
          (new [] 0%Z)) = new [] 0%Z /\
   knowledge
     (snd (Phase9U.learn_fact Py.lower "car" "has_part" "ENGINE" "user" 1%Z
             (new [] 0%Z))) = knowledge (new [] 0%Z)) /\
  fst (query_facts "CAR" "Has_Part"
         (snd (learn_fact "Car" "has_part" "Door" "user" 1%Z (new [] 0%Z))))
    = Ok ["engine"; "wheel"; "Door"] /\
  map subject
      (knowledge
         (snd (learn_fact "Car" "has_part" "Door" "user" 1%Z (new [] 0%Z))))
    = ["ball"; "ball"; "ball"; "car"; "car"; "france"; "car"].
Proof.
  intros after. split; [| split; [| split]].
  - apply (proj1 learned_fact_is_stored_verbatim Py.lower
             (new [] 0%Z) "Car" "has_part" "Door" "user" 1%Z).
    + reflexivity.
    + reflexivity.
    + reflexivity.
  - apply (proj2 learned_fact_is_stored_verbatim Py.lower
             (new [] 0%Z) "car" "has_part" "ENGINE" "user" 1%Z
             "ALREADY_KNOWN").
    + reflexivity.
    + now left.
  - reflexivity.
  - reflexivity.
Defined.

End Phase9_claims_any_mapping.

Section Phase9_tables_any_mapping.
Import Phase9.
Variable lower : string -> string.

Lemma new_knowledge_any db now :
  knowledge (Phase9U.new lower db now) =
  match db with
  | [] => knowledge (Phase9U.new lower [] now)
  | _ :: _ => db
  end.
Proof. destruct db; reflexivity. Qed.

(** The table of a new database file. *)
Lemma new_empty_any now :
  knowledge (Phase9U.new lower [] now) =
  [ Spec.constant_row (lower "ball") (lower "shape") "round" now;
    Spec.constant_row (lower "ball") (lower "can_be_action") "thrown" now;
    Spec.constant_row (lower "ball") (lower "can_be_action") "caught" now;
    Spec.constant_row (lower "car") (lower "has_part") "engine" now;
    Spec.constant_row (lower "car") (lower "has_part") "wheel" now;
    Spec.constant_row (lower "France") (lower "capital") "Paris" now ].
Proof. reflexivity. Qed.

Lemma learn_fact_appends_rows_any self s r f src now :
  let self' := snd (Phase9U.learn_fact lower s r f src now self) in
  connection_open self' = connection_open self /\
  (knowledge self' = knowledge self \/
   knowledge self' =
     (knowledge self ++ [SpecU.learned_row lower s r f src now])%list).
Proof.
  destruct self as [[|] rows].
  - destruct (learn_fact_outcomes_any lower
                {| connection_open := true; knowledge := rows |}
                s r f src now eq_refl) as [E | [E | E]];
      rewrite E; simpl; auto.
  - rewrite learn_fact_closed_any. simpl. auto.
Qed.

Hypothesis lower_twice : forall s, lower (lower s) = lower s.

Lemma reachable_rows_folded_any self :
  Phase9U.reachable lower self ->
  Forall (SpecU.folded lower) (knowledge self).
Proof.
  induction 1 as [now | self s r f src now _ IH | self _ IH | self now _ IH].
  - rewrite new_empty_any.
    repeat (constructor;
            [split; simpl; apply lower_twice |]).
    constructor.
  - destruct (learn_fact_appends_rows_any self s r f src now)
      as [_ [E | E]]; rewrite E; [exact IH |].
    apply Forall_app. split; [exact IH |].
    constructor; [| constructor].
    split; simpl; apply lower_twice.
  - exact IH.
  - rewrite new_knowledge_any.
    destruct (knowledge self) as [|x rows] eqn:E; [| exact IH].
    rewrite new_empty_any.
    repeat (constructor;
            [split; simpl; apply lower_twice |]).
    constructor.
Qed.

End Phase9_tables_any_mapping.

Section Phase9_extras_any_mapping.
Import Phase9.

(** X1. [learn_fact] only ever appends: the table after the call is the
    table before it followed by nothing or by the one row it writes (the
    key as the case mapping gives it, the fact as it was given), and the
    connection is as it was. No stored row, immutable or not, is removed
    or changed, whatever the outcome. This holds for every case mapping,
    Python's among them. *)
Theorem learn_fact_only_appends :
  forall lower self s r f src now,
    let self' := snd (Phase9U.learn_fact lower s r f src now self) in
    connection_open self' = connection_open self /\
    (knowledge self' = knowledge self \/
     knowledge self' =
       (knowledge self
        ++ [{| subject := lower s; relationship := lower r; fact := f;
               is_immutable := false; source := src;
               timestamp := now |}])%list) /\
    (forall x, In x (knowledge self) -> In x (knowledge self')) /\
    firstn (length (knowledge self)) (knowledge self') = knowledge self.
Proof.
  intros lower self s r f src now self'.
  destruct (learn_fact_appends_rows_any lower self s r f src now)
    as [Hopen Hrows].
  fold self' in Hopen, Hrows.
  split; [exact Hopen |]. split; [exact Hrows |].
  destruct Hrows as [-> | ->].
  - split; [auto | apply firstn_all].
  - split.
    + intros x Hx. apply in_or_app. now left.
    + rewrite firstn_app, Nat.sub_diag, firstn_all. simpl.
      now rewrite app_nil_r.
Qed.

(** X3. When the case mapping changes nothing in a text it has already
    mapped (Python's [str.lower] is such a mapping), every key of a
    reachable engine is stored as the mapping leaves it, so a query misses
    nothing: [query_facts S R] returns, in table order, the facts of
    exactly the rows whose subject and relationship the mapping sends
    where it sends [S] and [R]. *)
Theorem query_matches_up_to_case :
  forall lower self S R,
    (forall s, lower (lower s) = lower s) ->
    Phase9U.reachable lower self -> connection_open self = true ->
    (forall x, In x (knowledge self) -> SpecU.folded lower x) /\
    Phase9U.query_facts lower S R self =
      (Ok (map fact
             (filter (fun x =>
                        (lower (subject x) =? lower S)
                        && (lower (relationship x) =? lower R))
                     (knowledge self))),
       self).
Proof.
  intros lower self S R Hidem Hreach Hopen.
  pose proof (reachable_rows_folded_any lower Hidem self Hreach) as Hall.
  rewrite Forall_forall in Hall.
  split; [exact Hall |].
  rewrite (query_facts_when_open lower self S R Hopen).
  f_equal. f_equal. f_equal. apply filter_ext_in. intros x Hx.
  destruct (Hall x Hx) as [Hs Hr].
  unfold where_key. now rewrite Hs, Hr.
Qed.

(** X3, with the ASCII mapping: "FRANCE" finds the capital stored under
    "france", and "Car", taught a "Roof", is found as "CAR". *)
Lemma query_matches_up_to_case_witness :
  let taught :=
    snd (Phase9U.learn_fact Py.lower "Car" "Has_Part" "Roof" "user" 1%Z
           (Phase9U.new Py.lower [] 0%Z)) in
  ((forall x, In x (knowledge taught) -> SpecU.folded Py.lower x) /\
   Phase9U.query_facts Py.lower "CAR" "HAS_PART" taught =
     (Ok (map fact
            (filter (fun x =>
                       (Py.lower (subject x) =? Py.lower "CAR")
                       && (Py.lower (relationship x) =? Py.lower "HAS_PART"))
                    (knowledge taught))),
      taught)) /\
  fst (query_facts "CAR" "HAS_PART"
         (snd (learn_fact "Car" "Has_Part" "Roof" "user" 1%Z (new [] 0%Z))))
    = Ok ["engine"; "wheel"; "Roof"] /\
  fst (query_facts "FRANCE" "Capital" (new [] 0%Z)) = Ok ["Paris"].
Proof.
  intros taught. split; [| split; reflexivity].
  apply (query_matches_up_to_case Py.lower taught "CAR" "HAS_PART").
  - exact lower_idempotent.
  - apply Phase9U.reach_learn. apply Phase9U.reach_new.
  - reflexivity.
Defined.

(** X5. Whenever [learn_fact] returns an outcome other than
    [CONFLICT_WITH_CONSTANT], the table then holds under the key a fact
    that the case mapping sends where it sends the given one, and the
    query of the key returns such a fact. This holds for every case
    mapping, Python's among them. *)
Theorem learned_or_known_fact_is_stored :
  forall lower self s r f src now o self',
    Phase9U.learn_fact lower s r f src now self = (Ok o, self') ->
    o <> "CONFLICT_WITH_CONSTANT" ->
    (exists x, In x (knowledge self') /\ subject x = lower s /\
               relationship x = lower r /\ lower (fact x) = lower f) /\
    exists facts g,
      Phase9U.query_facts lower s r self' = (Ok facts, self') /\
      In g facts /\ lower g = lower f.
Proof.
  intros lower self s r f src now o self' H Ho.
  pose proof (learn_fact_ok_open_any lower _ _ _ _ _ _ _ _ H) as Hopen.
  assert (Hknows : SpecU.knows lower (knowledge self') s r f).
  { rewrite (open_engine self Hopen), learn_fact_open_any in H.
    cbn zeta in H.
    assert (Hnew : SpecU.knows lower
                     (knowledge self
                      ++ [SpecU.learned_row lower s r f src now]) s r f).
    { exists (SpecU.learned_row lower s r f src now).
      split; [apply in_or_app; right; now left | repeat split]. }
    destruct (filter (where_key (lower s) (lower r)) (knowledge self))
      as [|x existing] eqn:E.
    - inversion H; subst. exact Hnew.
    - destruct (Py.mem _ _ && is_immutable x).
      + inversion H; subst. congruence.
      + destruct (existsb _ (x :: existing)) eqn:Hex.
        * inversion H; subst. simpl.
          apply existsb_exists in Hex. destruct Hex as [y [Hy He]].
          rewrite <- E in Hy. apply filter_In in Hy.
          destruct Hy as [Hin Hk]. unfold where_key in Hk.
          apply andb_true_iff in Hk. destruct Hk as [Hs Hr].
          apply String.eqb_eq in Hs, Hr, He.
          exists y. auto.
        * inversion H; subst. exact Hnew. }
  split; [exact Hknows |].
  assert (Hopen' : connection_open self' = true).
  { pose proof (learn_fact_appends_rows_any lower self s r f src now)
      as [Hc _].
    rewrite H in Hc. simpl in Hc. congruence. }
  destruct Hknows as [x [Hin [Hs [Hr Hf]]]].
  exists (map fact (filter (where_key (lower s) (lower r))
                           (knowledge self'))), (fact x).
  split; [| split; [| exact Hf]].
  - now apply query_facts_when_open.
  - apply in_map. apply filter_In. split; [assumption |].
    unfold where_key. rewrite Hs, Hr. now rewrite !String.eqb_refl.
Qed.

(** X5, with the ASCII mapping: "ENGINE" is already known of the "Car",
    and the query has "engine". *)
Lemma learned_or_known_fact_is_stored_witness :
  ((exists x, In x (knowledge (new [] 0%Z)) /\
              subject x = Py.lower "Car" /\
              relationship x = Py.lower "Has_Part" /\
              Py.lower (fact x) = Py.lower "ENGINE") /\
   exists facts g,
     Phase9U.query_facts Py.lower "Car" "Has_Part" (new [] 0%Z)
       = (Ok facts, new [] 0%Z) /\
     In g facts /\ Py.lower g = Py.lower "ENGINE") /\
  learn_fact "Car" "Has_Part" "ENGINE" "user" 1%Z (new [] 0%Z)
    = (Ok "ALREADY_KNOWN", new [] 0%Z) /\
  fst (query_facts "Car" "Has_Part" (new [] 0%Z))
    = Ok ["engine"; "wheel"].
Proof.
  split; [| split; reflexivity].
  apply (learned_or_known_fact_is_stored Py.lower
           (new [] 0%Z) "Car" "Has_Part" "ENGINE" "user" 1%Z
           "ALREADY_KNOWN" (new [] 0%Z)).
  - reflexivity.
  - discriminate.
Defined.

End Phase9_extras_any_mapping.

Section Phase10_any_mapping.
Import Phase10.
Variable lower : string -> string.

Lemma learn_fact_open10_any rows s r f src now :
  Phase10U.learn_fact lower s r f src now (Spec.opened10 rows) =
  let replaced :=
    Spec.opened10 (SpecU.other_keys lower s r rows
                   ++ [SpecU.learned_row10 lower s r f src now]) in
  match filter (where_key (lower s) (lower r)) rows with
  | [] => (Ok "LEARNED_SUCCESSFULLY", replaced)
  | x :: _ =>
      if is_immutable x then (Ok "CONFLICT_WITH_CONSTANT", Spec.opened10 rows)
      else (Ok "UPDATED_BELIEF", replaced)
  end.
Proof.
  unfold Phase10U.learn_fact, bind, select, insert_or_replace,
    Spec.opened10, SpecU.other_keys, SpecU.learned_row10.
  cbn -[filter].
  destruct (filter (where_key (lower s) (lower r)) rows)
    as [|x existing] eqn:E; cbn -[filter]; rewrite ?E; cbn -[filter];
    [reflexivity |].
  destruct (is_immutable x); cbn -[filter]; rewrite ?E; reflexivity.
Qed.

Lemma other_keys_unique_any s r rows :
  unique_keys rows -> unique_keys (SpecU.other_keys lower s r rows).
Proof.
  unfold unique_keys, SpecU.other_keys.
  induction rows as [|y rows IH]; simpl; [auto |].
  intros Hnd. inversion Hnd as [|k ks Hnotin Hnd']; subst.
  destruct (negb _); [| now apply IH].
  simpl. constructor; [| now apply IH].
  intros Hin. apply Hnotin. apply in_map_iff in Hin.
  destruct Hin as [z [Hz Hin]]. apply filter_In in Hin.
  rewrite <- Hz. apply in_map. tauto.
Qed.

Lemma replaced_unique_any s r f src now rows :
  unique_keys rows ->
  unique_keys (SpecU.other_keys lower s r rows
               ++ [SpecU.learned_row10 lower s r f src now]).
Proof.
  intros Hnd. unfold unique_keys. rewrite map_app. simpl.
  apply NoDup_app;
    [now apply other_keys_unique_any | repeat constructor; simpl; tauto |].
  intros k Hin [<- | []]. apply in_map_iff in Hin.
  destruct Hin as [z [Hz Hin]]. apply filter_In in Hin.
  destruct Hin as [_ Hk].
  change (key (SpecU.learned_row10 lower s r f src now))
    with (lower s, lower r) in Hz.
  apply key_where_key in Hz. rewrite Hz in Hk. discriminate.
Qed.

Lemma other_keys_twice s r rows :
  SpecU.other_keys lower s r (SpecU.other_keys lower s r rows)
  = SpecU.other_keys lower s r rows.
Proof.
  unfold SpecU.other_keys. induction rows as [|x rows IH]; [reflexivity |].
  simpl. destruct (negb (where_key (lower s) (lower r) x)) eqn:E;
    simpl; [rewrite E, IH |]; auto.
Qed.

Lemma other_keys_after_replace s r f src now rows :
  SpecU.other_keys lower s r
    (SpecU.other_keys lower s r rows
     ++ [SpecU.learned_row10 lower s r f src now])
  = SpecU.other_keys lower s r rows.
Proof.
  unfold SpecU.other_keys at 1. rewrite filter_app.
  fold (SpecU.other_keys lower s r (SpecU.other_keys lower s r rows)).
  rewrite other_keys_twice. simpl.
  unfold where_key; simpl. rewrite !String.eqb_refl. simpl.
  apply app_nil_r.
Qed.

End Phase10_any_mapping.

Section Phase10_extras_any_mapping.
Import Phase10.

(** X8. The phase 10 [learn_fact] touches only the row under its own key:
    the rows under every other key are the same, in the same order, before
    and after, the keys stay unique, and an immutable row is never replaced
    or removed. This holds for every case mapping, Python's among them. *)
Theorem learn_fact_touches_only_its_key :
  forall lower self s r f src now,
    unique_keys (knowledge self) ->
    let self' := snd (Phase10U.learn_fact lower s r f src now self) in
    unique_keys (knowledge self') /\
    filter (fun x => negb (where_key (lower s) (lower r) x))
           (knowledge self')
      = filter (fun x => negb (where_key (lower s) (lower r) x))
               (knowledge self) /\
    (forall x, In x (knowledge self) -> is_immutable x = true ->
               In x (knowledge self')).
Proof.
  intros lower self s r f src now Hnd self'.
  fold (SpecU.other_keys lower s r (knowledge self')).
  fold (SpecU.other_keys lower s r (knowledge self)).
  unfold self'. destruct self as [[|] rows]; [| repeat split; auto].
  change {| connection_open := true; knowledge := rows |}
    with (Spec.opened10 rows).
  simpl in Hnd. rewrite learn_fact_open10_any. cbn zeta.
  assert (Hkeep : forall x, In x rows -> is_immutable x = true ->
            (forall y rest,
               filter (where_key (lower s) (lower r)) rows = y :: rest
               -> is_immutable y = false) ->
            In x (SpecU.other_keys lower s r rows
                  ++ [SpecU.learned_row10 lower s r f src now])).
  { intros x Hin Himm Hfirst. apply in_or_app. left.
    apply filter_In. split; [assumption |].
    destruct (where_key (lower s) (lower r) x) eqn:Hk; [| reflexivity].
    exfalso. pose proof (unique_filter rows x Hnd Hin) as Hx.
    apply key_where_key in Hk. unfold key in Hk. injection Hk as Hs Hr.
    rewrite Hs, Hr in Hx. specialize (Hfirst x [] Hx). congruence. }
  destruct (filter (where_key (lower s) (lower r)) rows)
    as [|y existing] eqn:E.
  - simpl. split; [now apply replaced_unique_any |].
    split; [apply other_keys_after_replace |].
    intros x Hin Himm. apply Hkeep; auto. intros; discriminate.
  - destruct (is_immutable y) eqn:Hy; simpl; [repeat split; auto |].
    split; [now apply replaced_unique_any |].
    split; [apply other_keys_after_replace |].
    intros x Hin Himm. apply Hkeep; auto.
    intros y' rest Hy'. now injection Hy' as <- _.
Qed.

(** X8, with the ASCII mapping: teaching the "Color" of the "Ball" twice
    leaves its shape and the capital of France alone, and keeps one colour
    row, the last. *)
Lemma learn_fact_touches_only_its_key_witness :
  let self := snd (learn_fact "ball" "color" "red" "user" 1%Z (new [] 0%Z)) in
  let self' :=
    snd (Phase10U.learn_fact Py.lower "Ball" "COLOR" "Blue" "user" 2%Z self) in
  (unique_keys (knowledge self') /\
   filter (fun x => negb (where_key (Py.lower "Ball") (Py.lower "COLOR") x))
          (knowledge self')
     = filter (fun x =>
                 negb (where_key (Py.lower "Ball") (Py.lower "COLOR") x))
              (knowledge self) /\
   (forall x, In x (knowledge self) -> is_immutable x = true ->
              In x (knowledge self'))) /\
  map (fun x => (subject x, relationship x, fact x)) (knowledge self')
    = [("ball", "shape", "round"); ("france", "capital", "Paris");
       ("ball", "color", "Blue")] /\
  map (fun x => (subject x, relationship x, fact x))
      (knowledge (snd (learn_fact "Ball" "COLOR" "Blue" "user" 2%Z self)))
    = [("ball", "shape", "round"); ("france", "capital", "Paris");
       ("ball", "color", "Blue")].
Proof.
  intros self self'. split; [| split; reflexivity].
  apply (learn_fact_touches_only_its_key Py.lower self
           "Ball" "COLOR" "Blue" "user" 2%Z).
  unfold self. apply learn_fact_keeps_unique. apply new_unique.
Defined.

End Phase10_extras_any_mapping.

Section Inference_any_mapping.

(** X13. [_infer_relationship] looks at the fact as the case mapping gives
    it only: it answers "shape" exactly when that is one of the five shape
    words, "color" exactly when it is one of the six colour words, and
    "state" for everything else, and two facts the mapping sends to the
    same text get the same relationship. This holds for every case mapping,
    Python's among them. *)
Theorem inferred_relationship_by_keyword :
  forall lower fact_text,
    (Parser10U._infer_relationship lower fact_text = "shape" <->
     In (lower fact_text)
        ["round"; "square"; "triangular"; "flat"; "curved"]) /\
    (Parser10U._infer_relationship lower fact_text = "color" <->
     In (lower fact_text)
        ["red"; "blue"; "green"; "yellow"; "black"; "white"]) /\
    (Parser10U._infer_relationship lower fact_text = "state" <->
     ~ In (lower fact_text)
          ["round"; "square"; "triangular"; "flat"; "curved";
           "red"; "blue"; "green"; "yellow"; "black"; "white"]) /\
    (forall other, lower other = lower fact_text ->
       Parser10U._infer_relationship lower other
       = Parser10U._infer_relationship lower fact_text).
Proof.
  intros lower fact_text.
  assert (Hdisjoint :
    Py.mem (lower fact_text)
           ["round"; "square"; "triangular"; "flat"; "curved"] = true ->
    Py.mem (lower fact_text)
           ["red"; "blue"; "green"; "yellow"; "black"; "white"] = true ->
    False).
  { rewrite !mem_In. simpl. intros H1 H2.
    repeat (destruct H1 as [H1 | H1];
            [rewrite <- H1 in H2; simpl in H2; intuition discriminate |]).
    contradiction. }
  assert (Hcase : forall other, lower other = lower fact_text ->
            Parser10U._infer_relationship lower other
            = Parser10U._infer_relationship lower fact_text).
  { intros other Hsame.
    unfold Parser10U._infer_relationship, Parser10.relationship_keywords,
      Parser10U.infer_from.
    now rewrite Hsame. }
  unfold Parser10U._infer_relationship, Parser10.relationship_keywords,
    Parser10U.infer_from in *.
  change ["round"; "square"; "triangular"; "flat"; "curved";
          "red"; "blue"; "green"; "yellow"; "black"; "white"]
    with (["round"; "square"; "triangular"; "flat"; "curved"]
          ++ ["red"; "blue"; "green"; "yellow"; "black"; "white"])%list.
  rewrite in_app_iff, <- !mem_In.
  destruct (Py.mem (lower fact_text)
                   ["round"; "square"; "triangular"; "flat"; "curved"])
    eqn:E1;
    destruct (Py.mem (lower fact_text)
                     ["red"; "blue"; "green"; "yellow"; "black"; "white"])
      eqn:E2.
  - exfalso. now apply Hdisjoint.
  - repeat split; try discriminate; try exact Hcase; intuition discriminate.
  - repeat split; try discriminate; try exact Hcase; intuition discriminate.
  - repeat split; try discriminate; try exact Hcase; intuition discriminate.
Qed.

(** X13, with the ASCII mapping: "Square" is a shape like "square",
    "BLUE" a colour, "heavy" a state. *)
Lemma inferred_relationship_by_keyword_witness :
  Parser10U._infer_relationship Py.lower "Square"
    = Parser10U._infer_relationship Py.lower "square" /\
  Parser10U._infer_relationship Py.lower "Square" = "shape" /\
  Parser10U._infer_relationship Py.lower "BLUE" = "color" /\
  Parser10U._infer_relationship Py.lower "heavy" = "state" /\
  Parser10._infer_relationship "Square" = "shape" /\
  Parser10._infer_relationship "BLUE" = "color" /\
  Parser10._infer_relationship "heavy" = "state".
Proof.
  split; [| repeat split].
  apply (proj2 (proj2 (proj2
           (inferred_relationship_by_keyword Py.lower "square")))).
  reflexivity.
Defined.

End Inference_any_mapping.
